(** * WrappedClient: command registry, permission check and event routing

    A shallow embedding of [src/WrappedClient.ts].  The class keeps three
    fields ([prefix], [messageCommands], [commands]); its methods and the three
    listeners installed by [login] are written in a small monad that threads
    the object, may complete abruptly with a JavaScript exception, and records
    every side-effecting statement (console output, calls into the discord.js
    client, calls into the [Payload] module, field writes and calls of
    user-supplied callbacks) in program order.

    User-supplied callbacks are opaque: a call is recorded in the trace with
    the arguments it received, and the callback is taken to return normally
    without re-entering the client. *)

From Stdlib Require Import Ascii String.
From stdpp Require Import base option list gmap strings.

Local Open Scope string_scope.
Local Open Scope list_scope.

(** ** Strings

    A character stands for one UTF-16 code unit of the JavaScript string. *)

Module Js.

(** A string is falsy exactly when it is empty. *)
Definition truthy (s : string) : bool :=
  match s with
  | EmptyString => false
  | String _ _ => true
  end.

(** [s.startsWith(p)] *)
Fixpoint startsWith (s p : string) : bool :=
  match p with
  | EmptyString => true
  | String c p' =>
      match s with
      | EmptyString => false
      | String d s' => if decide (c = d) then startsWith s' p' else false
      end
  end.

(** [s.substring(n)] for a natural number [n]: the code units from index [n]
    on, the empty string when [n] is past the end. *)
Fixpoint substring (s : string) (n : nat) : string :=
  match n with
  | O => s
  | S n' =>
      match s with
      | EmptyString => EmptyString
      | String _ s' => substring s' n'
      end
  end.

(** [s.split(sep)] for a separator of one code unit.  The result is never
    empty: the empty string splits into one empty piece. *)
Fixpoint split (s : string) (sep : ascii) : list string :=
  match s with
  | EmptyString => [EmptyString]
  | String c s' =>
      if decide (c = sep) then EmptyString :: split s' sep
      else match split s' sep with
           | [] => [String c EmptyString]
           | w :: ws => String c w :: ws
           end
  end.

(** An optional member is truthy exactly when it is there: the values held
    here are objects, which are truthy even when they are empty sets. *)
Definition present {A} (o : option A) : bool :=
  match o with
  | Some _ => true
  | None => false
  end.

(** [a.shift()] as a pure function: the removed first element (absent on an
    empty array) and the array that remains. *)
Definition shift {A} (a : list A) : option A * list A :=
  match a with
  | [] => (None, [])
  | x :: a' => (Some x, a')
  end.

(** *** Plain objects used as dictionaries

    [messageCommands] and [commands] are created by the literal [{}], so a
    read [o[k]] first looks at the object's own properties and then at those of
    [Object.prototype].  Every inherited property is a function (or, for
    [__proto__], the prototype object itself): truthy, and without a
    [callback] or [getCallback] member. *)
Definition Object_prototype : list string :=
  [ "constructor"; "__defineGetter__"; "__defineSetter__"; "hasOwnProperty";
    "__lookupGetter__"; "__lookupSetter__"; "isPrototypeOf";
    "propertyIsEnumerable"; "toString"; "valueOf"; "__proto__";
    "toLocaleString" ].

Inductive Property (A : Type) : Type :=
  | Own (a : A)
  | Inherited
  | Undefined.
Arguments Own {A} a.
Arguments Inherited {A}.
Arguments Undefined {A}.

Definition get {A} (o : gmap string A) (k : string) : Property A :=
  match o !! k with
  | Some a => Own a
  | None => if bool_decide (k ∈ Object_prototype) then Inherited else Undefined
  end.

(** [c.some(f)] on a discord.js [Collection], a [Map] keyed by id. *)
Definition some {A} (f : A → bool) (c : gmap string A) : bool :=
  existsb f (snd <$> map_to_list c).

Inductive Error : Type :=
  | TypeError (message : string).

End Js.

(** ** The platform's data, as far as the router reads it *)

Definition Snowflake := string.
Definition PermissionString := string.

Record User : Type := { user_id : Snowflake; bot : bool }.

Record Role : Type := { role_id : Snowflake }.

(** [permissions] holds the value of [member.permissions.toArray()], [roles]
    the collection [member.roles.cache]. *)
Record GuildMember : Type := {
  user : User;
  permissions : list PermissionString;
  roles : gmap Snowflake Role
}.

Record Message : Type := {
  message_id : Snowflake;
  content : string;
  member : option GuildMember
}.

(** [members] is [guild.members.cache], [messages] is
    [channel.messages.cache]. *)
Record Guild : Type := { members : gmap Snowflake GuildMember }.
Record Channel : Type := { messages : gmap Snowflake Message }.

Inductive TargetType : Type := USER | MESSAGE.

Inductive CommandOption : Type := HoistedOption (opt_name opt_value : string).

Record BaseInteraction : Type := {
  interaction_id : Snowflake;
  guild : option Guild;
  channel : option Channel
}.

(** The four type guards of discord.js ([isCommand], [isButton],
    [isContextMenu], [isSelectMenu]) narrow an interaction to one of four
    classes; other interactions satisfy none of them. *)
Inductive Interaction : Type :=
  | CommandInteraction (base : BaseInteraction) (commandName : string)
      (_hoistedOptions : list CommandOption)
  | ButtonInteraction (base : BaseInteraction) (customId : string)
  | ContextMenuInteraction (base : BaseInteraction) (commandName : string)
      (targetType : TargetType) (targetId : Snowflake)
  | SelectMenuInteraction (base : BaseInteraction) (customId : string)
  | OtherInteraction (base : BaseInteraction).

Definition isCommand (i : Interaction) : bool :=
  match i with CommandInteraction _ _ _ => true | _ => false end.
Definition isButton (i : Interaction) : bool :=
  match i with ButtonInteraction _ _ => true | _ => false end.
Definition isContextMenu (i : Interaction) : bool :=
  match i with ContextMenuInteraction _ _ _ _ => true | _ => false end.
Definition isSelectMenu (i : Interaction) : bool :=
  match i with SelectMenuInteraction _ _ => true | _ => false end.

(** ** Callbacks and what they are called with *)

Inductive Callback : Type := Closure (id : nat).

Inductive Target : Type :=
  | TargetUser (u : User)
  | TargetMessage (m : Message).

Inductive CallArgs : Type :=
  | MessageArgs (message : Message) (args : list string)
  | SlashArgs (interaction : Interaction) (options : list CommandOption)
  | ComponentArgs (interaction : Interaction)
  | ContextMenuArgs (interaction : Interaction) (target : option Target).

(** ** Handler definitions *)

(** Modelled from the spec: the type of a text command's permission rule set
    is declared outside [WrappedClient.ts].  The router tests each of the three
    members for presence and calls [has] on it, so each is an optional set:
    capability flags, allowed role ids, denied role ids. *)
Module Permissions.
Record t : Type := {
  flags : option (gset PermissionString);
  allowed : option (gset Snowflake);
  denied : option (gset Snowflake)
}.
End Permissions.

(** Modelled from the spec: class [MessageCommand] is declared outside
    [WrappedClient.ts]; a text command has an identifier, an optional
    permission rule set and a callback that may not have been attached yet. *)
Module MessageCommand.
Record t : Type := {
  name : string;
  callback : option Callback;
  permissions : option Permissions.t
}.
Definition getCallback (c : t) : option Callback := callback c.
Definition getPermissions (c : t) : option Permissions.t := permissions c.
End MessageCommand.

Inductive CommandData : Type := Data (id : nat).
Inductive CommandPermissions : Type := PermissionData (id : nat).

(** Modelled from the spec: the four interaction command classes are declared
    outside [WrappedClient.ts]; an interaction command has an identifier, a
    kind, an optional guild scope, opaque declarative data, an optional
    permission rule set and a callback that may not have been attached yet.
    [class] is what [instanceof] inspects. *)
Module Command.
Inductive Class : Type :=
  | SlashCommand | ContextMenuCommand | ButtonCommand | SelectMenuCommand.
Record t : Type := {
  class : Class;
  name : string;
  callback : option Callback;
  guildId : option Snowflake;
  data : CommandData;
  permissions : option CommandPermissions
}.
Definition getCallback (c : t) : option Callback := callback c.
Definition getGuildId (c : t) : option Snowflake := guildId c.
Definition getData (c : t) : CommandData := data c.
Definition getPermissions (c : t) : option CommandPermissions := permissions c.
End Command.

(** The listeners that [registerEvent] can be handed: the three closures
    created in [login], or one supplied by the user. *)
Inductive Listener : Type :=
  | ReadyListener
  | MessageCreateListener
  | InteractionCreateListener
  | UserListener (id : nat).

Module ClientEvent.
Record t : Type := {
  name : string;
  once : bool;
  callback : option Listener
}.
(** [new ClientEvent(name, once)] *)
Definition new (name : string) (once : bool) : t :=
  {| name := name; once := once; callback := None |}.
Definition setCallback (l : Listener) (e : t) : t :=
  {| name := name e; once := once e; callback := Some l |}.
End ClientEvent.

(** ** The object and the monad of its methods *)

Record WrappedClient : Type := {
  prefix : string;
  messageCommands : gmap string MessageCommand.t;
  commands : gmap string Command.t
}.

(** The side-effecting statements, one constructor per kind. *)
Inductive Action : Type :=
  | ConsoleLog (text : string)
  | ConsoleWarn (text : string)
  | ClientLogin (token : string)
  | ClientOnce (event : string) (l : Listener)
  | ClientOn (event : string) (l : Listener)
  | PushPayloads
  | AddGuildPayload (guildId : Snowflake) (d : CommandData)
      (p : option CommandPermissions)
  | AddGlobalPayload (d : CommandData)
  | SetPrefix (p : string)
  | SetMessageCommand (k : string) (c : MessageCommand.t)
  | SetCommand (k : string) (c : Command.t)
  | Call (f : Callback) (a : CallArgs).

Inductive Completion (A : Type) : Type :=
  | Return (a : A)
  | Throw (e : Js.Error).
Arguments Return {A} a.
Arguments Throw {A} e.

Record Run (A : Type) : Type := MkRun {
  completion : Completion A;
  this_after : WrappedClient;
  trace : list Action
}.
Arguments MkRun {A} _ _ _.
Arguments completion {A} _.
Arguments this_after {A} _.
Arguments trace {A} _.

Definition M (A : Type) : Type := WrappedClient → Run A.

#[global] Instance M_ret : MRet M := λ A a this, MkRun (Return a) this [].

#[global] Instance M_bind : MBind M := λ A B f m this,
  let r := m this in
  match completion r with
  | Return a =>
      let r' := f a (this_after r) in
      MkRun (completion r') (this_after r') (trace r ++ trace r')
  | Throw e => MkRun (Throw e) (this_after r) (trace r)
  end.

Definition read : M WrappedClient := λ this, MkRun (Return this) this [].

Definition throw {A} (e : Js.Error) : M A := λ this, MkRun (Throw e) this [].

(** A statement that leaves the object alone. *)
Definition perform (a : Action) : M unit := λ this, MkRun (Return tt) this [a].

(** The three field writes. *)
Definition write_prefix (p : string) : M unit := λ this,
  MkRun (Return tt)
    {| prefix := p; messageCommands := messageCommands this;
       commands := commands this |}
    [SetPrefix p].

Definition write_messageCommand (k : string) (c : MessageCommand.t) : M unit :=
  λ this,
  MkRun (Return tt)
    {| prefix := prefix this; messageCommands := <[k:=c]> (messageCommands this);
       commands := commands this |}
    [SetMessageCommand k c].

Definition write_command (k : string) (c : Command.t) : M unit := λ this,
  MkRun (Return tt)
    {| prefix := prefix this; messageCommands := messageCommands this;
       commands := <[k:=c]> (commands this) |}
    [SetCommand k c].

Definition skip : M unit := mret tt.

(** ** The class *)

(** [constructor(prefix?)]: the field initialiser gives ["!"]; an argument
    replaces it only when it is truthy.  Creating the discord.js client is
    left out. *)
Definition constructor (prefix : option string) : WrappedClient :=
  {| prefix :=
       match prefix with
       | Some p => if Js.truthy p then p else "!"
       | None => "!"
       end;
     messageCommands := ∅;
     commands := ∅ |}.

Definition setPrefix (prefix : string) : M unit := write_prefix prefix.

Definition getPrefix : M string := this ← read; mret (prefix this).

(** *** [registerEvent] (lines 147-158) *)
Definition registerEvent (event : ClientEvent.t) : M bool :=
  match ClientEvent.callback event with
  | Some callback =>
      if ClientEvent.once event then
        perform (ConsoleLog
          ("Registered " +:+ ClientEvent.name event +:+ " as once."));;
        perform (ClientOnce (ClientEvent.name event) callback)
      else
        perform (ConsoleLog
          ("Registered " +:+ ClientEvent.name event +:+ " as once."));;
        perform (ClientOn (ClientEvent.name event) callback)
  | None => skip
  end;;
  mret false.

(** *** [registerMessageCommand] (lines 160-172) *)
Definition registerMessageCommand (command : MessageCommand.t) : M bool :=
  this ← read;
  match Js.get (messageCommands this) (MessageCommand.name command) with
  | Js.Own _ | Js.Inherited =>
      perform (ConsoleWarn
        ("A command with name [" +:+ MessageCommand.name command
           +:+ "] already exists."));;
      mret false
  | Js.Undefined =>
      match MessageCommand.getCallback command with
      | None =>
          perform (ConsoleWarn
            (MessageCommand.name command +:+ " does not have a callback set."));;
          mret false
      | Some _ =>
          write_messageCommand (MessageCommand.name command) command;;
          mret true
      end
  end.

(** *** [registerCommandObject] (lines 174-197) *)
Definition registerCommandObject (command : Command.t) : M bool :=
  this ← read;
  match Js.get (commands this) (Command.name command) with
  | Js.Own _ | Js.Inherited =>
      perform (ConsoleWarn
        ("A command with name [" +:+ Command.name command
           +:+ "] already exists."));;
      mret false
  | Js.Undefined =>
      match Command.getCallback command with
      | None =>
          perform (ConsoleWarn
            (Command.name command +:+ " does not have a callback set."));;
          mret false
      | Some _ =>
          write_command (Command.name command) command;;
          match Command.class command with
          | Command.SlashCommand | Command.ContextMenuCommand =>
              match Command.getGuildId command with
              | Some guildId =>
                  if Js.truthy guildId then
                    perform (AddGuildPayload guildId (Command.getData command)
                               (Command.getPermissions command))
                  else perform (AddGlobalPayload (Command.getData command))
              | None => perform (AddGlobalPayload (Command.getData command))
              end
          | Command.ButtonCommand | Command.SelectMenuCommand => skip
          end;;
          mret true
      end
  end.

(** *** The [ready] listener (lines 44-47) *)
Definition ready : M unit :=
  perform (ConsoleLog "Client logged in!");;
  perform PushPayloads.

(** *** The [messageCreate] listener (lines 51-94) *)

(** [flags && author.permissions.toArray().some(perm => flags.has(perm))] *)
Definition flags_match (flags : option (gset PermissionString))
    (author : GuildMember) : bool :=
  match flags with
  | Some flags => existsb (λ perm, bool_decide (perm ∈ flags)) (permissions author)
  | None => false
  end.

(** [list && author.roles.cache.some(role => list.has(role.id))], the test of
    lines 85 and 86. *)
Definition roles_match (list : option (gset Snowflake))
    (author : GuildMember) : bool :=
  match list with
  | Some list => Js.some (λ role, bool_decide (role_id role ∈ list)) (roles author)
  | None => false
  end.

Definition messageCreate (message : Message) : M unit :=
  this ← read;
  let '(command, args) := Js.shift (Js.split (content message) " ") in
  match command with
  | Some command =>
      if Js.truthy command && Js.startsWith command (prefix this) then
        match Js.get (messageCommands this)
                (Js.substring command (String.length (prefix this))) with
        | Js.Undefined => skip
        | commandData =>
            match member message with
            | None => skip
            | Some author =>
                if bot (user author) then skip
                else
                  match commandData with
                  | Js.Own commandData =>
                      match MessageCommand.getCallback commandData with
                      | None => skip
                      | Some callback =>
                          match MessageCommand.getPermissions commandData with
                          | None => perform (Call callback (MessageArgs message args))
                          | Some permissions =>
                              let flags := Permissions.flags permissions in
                              if flags_match flags author then
                                perform (Call callback (MessageArgs message args))
                              else
                                let allowed := Permissions.allowed permissions in
                                let denied := Permissions.denied permissions in
                                if negb (Js.present allowed)
                                   && negb (Js.present denied) then
                                  perform (Call callback (MessageArgs message args))
                                else if roles_match denied author then skip
                                else if roles_match allowed author then
                                  perform (Call callback (MessageArgs message args))
                                else skip
                          end
                      end
                  | _ =>
                      throw (Js.TypeError "commandData.getCallback is not a function")
                  end
            end
        end
      else skip
  | None => skip
  end.

(** *** The [interactionCreate] listener (lines 98-143) *)

(** [this.commands[key].callback]: reading a member of [undefined] throws; an
    inherited property has no such member. *)
Definition callback_of (key : string) : M (option Callback) :=
  this ← read;
  match Js.get (commands this) key with
  | Js.Own command => mret (Command.callback command)
  | Js.Inherited => mret None
  | Js.Undefined =>
      throw (Js.TypeError
        "Cannot read properties of undefined (reading 'callback')")
  end.

(** The value of [target] at line 134, computed by lines 116-132. *)
Definition target_of (base : BaseInteraction) (targetType : TargetType)
    (targetId : Snowflake) : option Target :=
  match guild base with
  | Some guild =>
      match targetType with
      | USER =>
          match members guild !! targetId with
          | Some member => Some (TargetUser (user member))
          | None => None
          end
      | MESSAGE =>
          match channel base with
          | Some channel => TargetMessage <$> (messages channel !! targetId)
          | None => None
          end
      end
  | None => None
  end.

Definition interactionCreate (interaction : Interaction) : M unit :=
  match interaction with
  | CommandInteraction _ commandName _hoistedOptions =>
      callback ← callback_of commandName;
      match callback with
      | Some callback => perform (Call callback (SlashArgs interaction _hoistedOptions))
      | None => skip
      end
  | _ => skip
  end;;
  match interaction with
  | ButtonInteraction _ customId =>
      callback ← callback_of customId;
      match callback with
      | Some callback => perform (Call callback (ComponentArgs interaction))
      | None => skip
      end
  | _ => skip
  end;;
  match interaction with
  | ContextMenuInteraction base commandName targetType targetId =>
      callback ← callback_of commandName;
      match callback with
      | Some callback =>
          let target := target_of base targetType targetId in
          perform (Call callback (ContextMenuArgs interaction target))
      | None => skip
      end
  | _ => skip
  end;;
  match interaction with
  | SelectMenuInteraction _ customId =>
      callback ← callback_of customId;
      match callback with
      | Some callback => perform (Call callback (ComponentArgs interaction))
      | None => skip
      end
  | _ => skip
  end.

(** *** [login] (lines 40-145)

    The connection itself is outside the model: [client.login] is recorded
    and taken to resolve. *)
Definition login (token : string) : M unit :=
  perform (ClientLogin token);;
  registerEvent (ClientEvent.setCallback ReadyListener
                   (ClientEvent.new "ready" true));;
  registerEvent (ClientEvent.setCallback MessageCreateListener
                   (ClientEvent.new "messageCreate" false));;
  registerEvent (ClientEvent.setCallback InteractionCreateListener
                   (ClientEvent.new "interactionCreate" false));;
  mret tt.

(** What the client emits, and the listener of [login] that receives it. *)
Inductive Emitted : Type :=
  | EmitReady
  | EmitMessageCreate (message : Message)
  | EmitInteractionCreate (interaction : Interaction).

Definition route (e : Emitted) : M unit :=
  match e with
  | EmitReady => ready
  | EmitMessageCreate message => messageCreate message
  | EmitInteractionCreate interaction => interactionCreate interaction
  end.

(** ** Reading the trace *)

(** The field writes among the recorded statements. *)
Definition is_write (a : Action) : bool :=
  match a with
  | SetPrefix _ | SetMessageCommand _ _ | SetCommand _ _ => true
  | _ => false
  end.

(** The calls into the [Payload] module that queue a command definition. *)
Definition is_payload (a : Action) : bool :=
  match a with
  | AddGuildPayload _ _ _ | AddGlobalPayload _ => true
  | _ => false
  end.

(** The effect of one recorded statement on the object. *)
Definition replay1 (this : WrappedClient) (a : Action) : WrappedClient :=
  match a with
  | SetPrefix p =>
      {| prefix := p; messageCommands := messageCommands this;
         commands := commands this |}
  | SetMessageCommand k c =>
      {| prefix := prefix this; messageCommands := <[k:=c]> (messageCommands this);
         commands := commands this |}
  | SetCommand k c =>
      {| prefix := prefix this; messageCommands := messageCommands this;
         commands := <[k:=c]> (commands this) |}
  | _ => this
  end.

Definition replay (t : list Action) (this : WrappedClient) : WrappedClient :=
  foldl replay1 this t.

(** The identifier that the [interactionCreate] listener looks up: the
    command name of a slash or context-menu invocation, the custom id of a
    button or select menu. *)
Definition lookup_key (i : Interaction) : option string :=
  match i with
  | CommandInteraction _ commandName _ => Some commandName
  | ButtonInteraction _ customId => Some customId
  | ContextMenuInteraction _ commandName _ _ => Some commandName
  | SelectMenuInteraction _ customId => Some customId
  | OtherInteraction _ => None
  end.

(** A text message reaches the permission evaluation of lines 66-91: its
    first token carries the prefix and names a registered command with a
    callback and a rule set, and its author is a guild member that is not a
    bot.  [args] are the tokens after the first. *)
Inductive Evaluates (this : WrappedClient) (message : Message)
    (author : GuildMember) (callback : Callback) (args : list string)
    (permissions : Permissions.t) : Prop :=
  | Evaluates_intro (command : string) (commandData : MessageCommand.t) :
      Js.shift (Js.split (content message) " ") = (Some command, args) →
      Js.truthy command = true →
      Js.startsWith command (prefix this) = true →
      messageCommands this !! Js.substring command (String.length (prefix this))
        = Some commandData →
      member message = Some author →
      bot (user author) = false →
      MessageCommand.callback commandData = Some callback →
      MessageCommand.permissions commandData = Some permissions →
      Evaluates this message author callback args permissions.

(** The actor holds a role of the list. *)
Definition holds_role (author : GuildMember) (list : gset Snowflake) : Prop :=
  ∃ k role, roles author !! k = Some role ∧ role_id role ∈ list.

(** The actor holds a flag of the set. *)
Definition holds_flag (author : GuildMember) (flags : gset PermissionString) : Prop :=
  ∃ perm, perm ∈ permissions author ∧ perm ∈ flags.

(** ** Sample data *)

Module Sample.

Definition greet_callback : Callback := Closure 1.

Definition alice : GuildMember :=
  {| user := {| user_id := "100"; bot := false |};
     permissions := ["SEND_MESSAGES"];
     roles := {[ "roleA" := {| role_id := "roleA" |} ]} |}.

Definition greeting : Message :=
  {| message_id := "900"; content := "!greet alice bob"; member := Some alice |}.

Definition greet (rules : option Permissions.t) : MessageCommand.t :=
  {| MessageCommand.name := "greet";
     MessageCommand.callback := Some greet_callback;
     MessageCommand.permissions := rules |}.

(** A fresh client on which [greet] has been registered. *)
Definition client (rules : option Permissions.t) : WrappedClient :=
  this_after (registerMessageCommand (greet rules) (constructor None)).

(** Flags the actor does not hold, next to an allow list that names a role
    the actor does hold. *)
Definition rules_flags_and_allow : Permissions.t :=
  {| Permissions.flags := Some {[ "ADMINISTRATOR" ]};
     Permissions.allowed := Some {[ "roleA" ]};
     Permissions.denied := None |}.

(** Flags the actor holds, next to a deny list that names the actor's role. *)
Definition rules_flags_and_deny : Permissions.t :=
  {| Permissions.flags := Some {[ "SEND_MESSAGES" ]};
     Permissions.allowed := None;
     Permissions.denied := Some {[ "roleA" ]} |}.

(** Three sets, all present and all empty. *)
Definition rules_empty_sets : Permissions.t :=
  {| Permissions.flags := Some ∅;
     Permissions.allowed := Some ∅;
     Permissions.denied := Some ∅ |}.

(** A rule set object without any member. *)
Definition rules_absent : Permissions.t :=
  {| Permissions.flags := None;
     Permissions.allowed := None;
     Permissions.denied := None |}.

(** The same role on both lists. *)
Definition rules_allow_and_deny : Permissions.t :=
  {| Permissions.flags := None;
     Permissions.allowed := Some {[ "roleA" ]};
     Permissions.denied := Some {[ "roleA" ]} |}.

Definition base : BaseInteraction :=
  {| interaction_id := "700"; guild := None; channel := None |}.

(** A guild that has [alice] cached under id 100, and an interaction in it. *)
Definition base_in_guild : BaseInteraction :=
  {| interaction_id := "701";
     guild := Some {| members := {[ "100" := alice ]} |};
     channel := Some {| messages := ∅ |} |}.

Definition report_callback : Callback := Closure 2.

Definition report (class : Command.Class) (guildId : option Snowflake)
    (callback : option Callback) : Command.t :=
  {| Command.class := class;
     Command.name := "report";
     Command.callback := callback;
     Command.guildId := guildId;
     Command.data := Data 7;
     Command.permissions := None |}.

(** A fresh client on which the context-menu command [report] has been
    registered. *)
Definition client_with_report : WrappedClient :=
  this_after
    (registerCommandObject
       (report Command.ContextMenuCommand None (Some report_callback))
       (constructor None)).

End Sample.

(** ** Sequences of operations on a client *)

(** [a.join(sep)], the inverse of [split]. *)
Fixpoint join (a : list string) (sep : string) : string :=
  match a with
  | [] => EmptyString
  | [x] => x
  | x :: rest => x +:+ sep +:+ join rest sep
  end.

(** The code unit [c] occurs in [s]. *)
Fixpoint contains (s : string) (c : ascii) : bool :=
  match s with
  | EmptyString => false
  | String d s' => if decide (d = c) then true else contains s' c
  end.

(** The arguments that the [interactionCreate] listener hands to a callback
    it has found (lines 104, 110, 134 and 140). *)
Definition arguments_of (i : Interaction) : option CallArgs :=
  match i with
  | CommandInteraction _ _ _hoistedOptions => Some (SlashArgs i _hoistedOptions)
  | ButtonInteraction _ _ => Some (ComponentArgs i)
  | ContextMenuInteraction base _ targetType targetId =>
      Some (ContextMenuArgs i (target_of base targetType targetId))
  | SelectMenuInteraction _ _ => Some (ComponentArgs i)
  | OtherInteraction _ => None
  end.

(** What a program can do with a client: call one of its public methods, or
    have the discord.js client emit an event to the listeners of [login]. *)
Inductive Op : Type :=
  | OpSetPrefix (prefix : string)
  | OpRegisterEvent (event : ClientEvent.t)
  | OpRegisterMessageCommand (command : MessageCommand.t)
  | OpRegisterCommandObject (command : Command.t)
  | OpLogin (token : string)
  | OpEmit (e : Emitted).

(** The client after one operation and the statements the operation
    performed.  An exception thrown by a listener leaves the client as it
    is at that point. *)
Definition apply_op (op : Op) (this : WrappedClient) : WrappedClient :=
  match op with
  | OpSetPrefix p => this_after (setPrefix p this)
  | OpRegisterEvent event => this_after (registerEvent event this)
  | OpRegisterMessageCommand command =>
      this_after (registerMessageCommand command this)
  | OpRegisterCommandObject command =>
      this_after (registerCommandObject command this)
  | OpLogin token => this_after (login token this)
  | OpEmit e => this_after (route e this)
  end.

Definition trace_op (op : Op) (this : WrappedClient) : list Action :=
  match op with
  | OpSetPrefix p => trace (setPrefix p this)
  | OpRegisterEvent event => trace (registerEvent event this)
  | OpRegisterMessageCommand command =>
      trace (registerMessageCommand command this)
  | OpRegisterCommandObject command =>
      trace (registerCommandObject command this)
  | OpLogin token => trace (login token this)
  | OpEmit e => trace (route e this)
  end.

Fixpoint apply_ops (ops : list Op) (this : WrappedClient) : WrappedClient :=
  match ops with
  | [] => this
  | op :: rest => apply_ops rest (apply_op op this)
  end.

Fixpoint trace_ops (ops : list Op) (this : WrappedClient) : list Action :=
  match ops with
  | [] => []
  | op :: rest => trace_op op this ++ trace_ops rest (apply_op op this)
  end.

(** Every registered definition sits under its own name, has a callback, and
    its name is not one that [Object.prototype] answers for. *)
Definition registry_ok (this : WrappedClient) : Prop :=
  (∀ k c, messageCommands this !! k = Some c →
          MessageCommand.name c = k
          ∧ is_Some (MessageCommand.callback c)
          ∧ k ∉ Js.Object_prototype)
  ∧ (∀ k c, commands this !! k = Some c →
            Command.name c = k
            ∧ is_Some (Command.callback c)
            ∧ k ∉ Js.Object_prototype).

(** The commands whose registration queues a payload (line 187). *)
Definition forwarded (c : Command.t) : bool :=
  match Command.class c with
  | Command.SlashCommand | Command.ContextMenuCommand => true
  | Command.ButtonCommand | Command.SelectMenuCommand => false
  end.

(** ** More sample data *)

Module Scenario.

Definition bob : GuildMember :=
  {| user := {| user_id := "101"; bot := false |};
     permissions := [];
     roles := {[ "roleB" := {| role_id := "roleB" |} ]} |}.

Definition robot : GuildMember :=
  {| user := {| user_id := "102"; bot := true |};
     permissions := [];
     roles := ∅ |}.

Definition says (text : string) (author : option GuildMember) : Message :=
  {| message_id := "901"; content := text; member := author |}.

(** A deny list that does not name the actor's role, and nothing else. *)
Definition rules_deny_only : Permissions.t :=
  {| Permissions.flags := None;
     Permissions.allowed := None;
     Permissions.denied := Some {[ "roleZ" ]} |}.

(** Flags the actor does not hold, and nothing else. *)
Definition rules_flags_only : Permissions.t :=
  {| Permissions.flags := Some {[ "ADMINISTRATOR" ]};
     Permissions.allowed := None;
     Permissions.denied := None |}.

Definition rules_allow_only : Permissions.t :=
  {| Permissions.flags := None;
     Permissions.allowed := Some {[ "roleA" ]};
     Permissions.denied := None |}.

(** A guild and a channel that cache [alice] and one message. *)
Definition cached_message : Message := says "hello" (Some Sample.alice).

Definition base_cached : BaseInteraction :=
  {| interaction_id := "702";
     guild := Some {| members := {[ "100" := Sample.alice ]} |};
     channel := Some {| messages := {[ "901" := cached_message ]} |} |}.

Definition slash_report : Command.t :=
  Sample.report Command.SlashCommand (Some "guild1")
    (Some Sample.report_callback).

End Scenario.

(** * Properties *)

(** Unfolds the monad's operations at the head of a run. *)
Ltac run :=
  cbv [mbind M_bind mret M_ret read throw perform skip
       write_prefix write_messageCommand write_command]; cbn.

(** ** Helper lemmas *)

Lemma some_true {A} (f : A → bool) (c : gmap string A) :
  Js.some f c = true ↔ ∃ k v, c !! k = Some v ∧ f v = true.
Proof.
  unfold Js.some. rewrite existsb_exists. split.
  - intros (v & Hin & Hf). apply list_elem_of_In, list_elem_of_fmap in Hin.
    destruct Hin as ([k v'] & -> & Hkv). apply elem_of_map_to_list in Hkv.
    by exists k, v'.
  - intros (k & v & Hkv & Hf). exists v. split; [|done].
    apply list_elem_of_In, list_elem_of_fmap. exists (k, v). split; [done|].
    by apply elem_of_map_to_list.
Qed.

Lemma roles_match_true (list : gset Snowflake) (author : GuildMember) :
  roles_match (Some list) author = true ↔ holds_role author list.
Proof.
  unfold roles_match, holds_role. rewrite some_true.
  split; intros (k & role & Hk & Hin); exists k, role; split; try done.
  - by apply bool_decide_eq_true in Hin.
  - by apply bool_decide_eq_true.
Qed.

Lemma flags_match_true (flags : gset PermissionString) (author : GuildMember) :
  flags_match (Some flags) author = true ↔ holds_flag author flags.
Proof.
  unfold flags_match, holds_flag. rewrite existsb_exists.
  split; intros (perm & Hin & Hfl); exists perm.
  - split; [by apply list_elem_of_In | by apply bool_decide_eq_true in Hfl].
  - split; [by apply list_elem_of_In | by apply bool_decide_eq_true].
Qed.

Lemma flags_match_false (flags : gset PermissionString) (author : GuildMember) :
  flags_match (Some flags) author = false ↔ ¬ holds_flag author flags.
Proof.
  rewrite <- flags_match_true. by destruct (flags_match _ _).
Qed.

Lemma get_own {A} (o : gmap string A) (k : string) (a : A) :
  o !! k = Some a → Js.get o k = Js.Own a.
Proof. unfold Js.get. by intros ->. Qed.

Lemma get_undefined {A} (o : gmap string A) (k : string) :
  Js.get o k = Js.Undefined ↔ o !! k = None ∧ k ∉ Js.Object_prototype.
Proof.
  unfold Js.get. destruct (o !! k); [by split; [|intros []]|].
  case_bool_decide; split; try done; try by intros [].
Qed.

(** The type guards are mutually exclusive, and the listener looks up a key
    exactly when one of them holds. *)
Lemma guards_exclusive (i : Interaction) :
  length (filter (λ b : bool, b = true)
            [isCommand i; isButton i; isContextMenu i; isSelectMenu i])
  = if bool_decide (is_Some (lookup_key i)) then 1 else 0.
Proof. by destruct i. Qed.

(** A miss in the interaction registry: reading [callback] of [undefined]
    throws before any callback can be called. *)
Lemma interactionCreate_miss (this : WrappedClient) (i : Interaction)
    (key : string) :
  lookup_key i = Some key →
  Js.get (commands this) key = Js.Undefined →
  interactionCreate i this =
    MkRun (Throw (Js.TypeError
                    "Cannot read properties of undefined (reading 'callback')"))
      this [].
Proof.
  intros Hkey Hget.
  destruct i; simplify_eq/=; unfold interactionCreate, callback_of; run;
    by rewrite Hget.
Qed.

(** A key that only [Object.prototype] answers for yields no callback and no
    exception. *)
Lemma interactionCreate_inherited (this : WrappedClient) (i : Interaction)
    (key : string) :
  lookup_key i = Some key →
  Js.get (commands this) key = Js.Inherited →
  interactionCreate i this = MkRun (Return tt) this [].
Proof.
  intros Hkey Hget.
  destruct i; simplify_eq/=; unfold interactionCreate, callback_of; run;
    by rewrite Hget.
Qed.

Lemma interactionCreate_frame (i : Interaction) (this : WrappedClient) :
  this_after (interactionCreate i this) = this
  ∧ forallb (λ a, negb (is_write a)) (trace (interactionCreate i this)) = true.
Proof.
  destruct i; unfold interactionCreate, callback_of; run; try done;
    match goal with
    | |- context [Js.get ?o ?k] =>
        destruct (Js.get o k) as [[? ? [?|] ? ? ?]| |]
    end; done.
Qed.

Lemma messageCreate_frame (message : Message) (this : WrappedClient) :
  this_after (messageCreate message this) = this
  ∧ forallb (λ a, negb (is_write a)) (trace (messageCreate message this)) = true.
Proof.
  unfold messageCreate; run.
  destruct (Js.shift _) as [[command|] args]; [|done].
  destruct (Js.truthy command && _); [|done].
  destruct (Js.get _ _) as [[? [?|] [[fl al dn]|]]| |];
    destruct (member message) as [author|]; try done;
    destruct (bot (user author)); try done; cbn.
  destruct (flags_match _ _); [done|].
  destruct (negb _ && negb _); [done|].
  destruct (roles_match dn author); [done|].
  by destruct (roles_match al author).
Qed.

Lemma registerEvent_run (event : ClientEvent.t) (this : WrappedClient) :
  registerEvent event this =
    MkRun (Return false) this
      match ClientEvent.callback event with
      | Some l =>
          [ ConsoleLog ("Registered " +:+ ClientEvent.name event +:+ " as once.");
            if ClientEvent.once event then ClientOnce (ClientEvent.name event) l
            else ClientOn (ClientEvent.name event) l ]
      | None => []
      end.
Proof. by destruct event as [n [] [l|]]. Qed.

Lemma registerMessageCommand_replay (command : MessageCommand.t)
    (this : WrappedClient) :
  this_after (registerMessageCommand command this)
  = replay (trace (registerMessageCommand command this)) this.
Proof.
  unfold registerMessageCommand; run.
  destruct (Js.get _ _); try done.
  by destruct (MessageCommand.getCallback command).
Qed.

Lemma registerCommandObject_replay (command : Command.t) (this : WrappedClient) :
  this_after (registerCommandObject command this)
  = replay (trace (registerCommandObject command this)) this.
Proof.
  unfold registerCommandObject; run.
  destruct (Js.get _ _); try done.
  destruct (Command.getCallback command); [|done].
  destruct (Command.class command); try done;
    destruct (Command.getGuildId command) as [g|]; try done;
    by destruct (Js.truthy g).
Qed.

Lemma setPrefix_replay (p : string) (this : WrappedClient) :
  this_after (setPrefix p this) = replay (trace (setPrefix p this)) this
  ∧ prefix (this_after (setPrefix p this)) = p.
Proof. done. Qed.

(** Entering the permission evaluation of a message that reaches it. *)
Ltac evaluate H :=
  destruct H as [command commandData Htokens Htruthy Hprefix Hlookup
                   Hmember Hbot Hcallback Hpermissions];
  unfold messageCreate; run;
  rewrite Htokens, Htruthy, Hprefix; cbn;
  rewrite (get_own _ _ _ Hlookup), Hmember, Hbot;
  unfold MessageCommand.getCallback, MessageCommand.getPermissions;
  rewrite Hcallback, Hpermissions; cbn.

Lemma sample_evaluates (rules : Permissions.t) :
  Evaluates (Sample.client (Some rules)) Sample.greeting Sample.alice
    Sample.greet_callback ["alice"; "bob"] rules.
Proof.
  by apply (Evaluates_intro _ _ _ _ _ _ "!greet" (Sample.greet (Some rules))).
Qed.

(** ** The claims *)

(** C1.  The claim: an interaction whose command name or custom id is not in
    the interaction registry is a silent no-op.  The listener does not get
    that far: on a client whose registry holds only [report], a slash
    invocation, a button press, a context-menu invocation and a select-menu
    interaction with the unregistered identifier [vote] all complete abruptly
    with a [TypeError]; no callback is called and the client is unchanged. *)
Theorem interactionCreate_unregistered_throws :
  let thrown :=
    MkRun (A := unit)
      (Throw (Js.TypeError
                "Cannot read properties of undefined (reading 'callback')"))
      Sample.client_with_report [] in
  interactionCreate (CommandInteraction Sample.base "vote" [])
    Sample.client_with_report = thrown
  ∧ interactionCreate (ButtonInteraction Sample.base "vote")
      Sample.client_with_report = thrown
  ∧ interactionCreate (ContextMenuInteraction Sample.base "vote" USER "100")
      Sample.client_with_report = thrown
  ∧ interactionCreate (SelectMenuInteraction Sample.base "vote")
      Sample.client_with_report = thrown.
Proof.
  repeat split; by apply (interactionCreate_miss _ _ "vote").
Qed.

(** C8.  A context-menu invocation whose name is registered with a callback
    calls it with an absent target whenever the target cannot be resolved:
    the guild is absent, or the target is a user whose id is not among the
    guild's cached members, or the target is a message and the channel is
    absent or does not have the id among its cached messages. *)
Theorem context_menu_unresolved_target_still_called
    (this : WrappedClient) (base : BaseInteraction) (commandName : string)
    (targetType : TargetType) (targetId : Snowflake)
    (command : Command.t) (callback : Callback) :
  commands this !! commandName = Some command →
  Command.callback command = Some callback →
  (guild base = None
   ∨ (∃ g, guild base = Some g ∧ targetType = USER
           ∧ members g !! targetId = None)
   ∨ (∃ g, guild base = Some g ∧ targetType = MESSAGE ∧ channel base = None)
   ∨ (∃ g ch, guild base = Some g ∧ targetType = MESSAGE
              ∧ channel base = Some ch ∧ messages ch !! targetId = None)) →
  interactionCreate
    (ContextMenuInteraction base commandName targetType targetId) this
  = MkRun (Return tt) this
      [Call callback
         (ContextMenuArgs
            (ContextMenuInteraction base commandName targetType targetId)
            None)].
Proof.
  intros Hlookup Hcallback Hunresolved.
  unfold interactionCreate, callback_of; run.
  rewrite (get_own _ _ _ Hlookup), Hcallback; cbn.
  assert (target_of base targetType targetId = None) as ->; [|done].
  unfold target_of.
  destruct Hunresolved as
    [-> | [(g & -> & -> & ->) | [(g & -> & -> & ->)
                               | (g & ch & -> & -> & -> & ->)]]]; done.
Qed.

Lemma context_menu_unresolved_target_still_called_witness :
  interactionCreate
    (ContextMenuInteraction Sample.base_in_guild "report" USER "404")
    Sample.client_with_report
  = MkRun (Return tt) Sample.client_with_report
      [Call Sample.report_callback
         (ContextMenuArgs
            (ContextMenuInteraction Sample.base_in_guild "report" USER "404")
            None)].
Proof.
  apply (context_menu_unresolved_target_still_called
           Sample.client_with_report Sample.base_in_guild "report" USER "404"
           (Sample.report Command.ContextMenuCommand None
              (Some Sample.report_callback))
           Sample.report_callback).
  - reflexivity.
  - reflexivity.
  - right; left. eexists. repeat split; reflexivity.
Defined.

(** C9.  [registerEvent] returns [false] on every call.  When the event has
    a callback the call logs one line and subscribes the callback to the
    client (with [once] or [on]); otherwise it does nothing.  The client
    object is left as it was. *)
Theorem registerEvent_returns_false (event : ClientEvent.t)
    (this : WrappedClient) :
  completion (registerEvent event this) = Return false
  ∧ this_after (registerEvent event this) = this
  ∧ trace (registerEvent event this) =
      match ClientEvent.callback event with
      | Some l =>
          [ ConsoleLog ("Registered " +:+ ClientEvent.name event +:+ " as once.");
            if ClientEvent.once event then ClientOnce (ClientEvent.name event) l
            else ClientOn (ClientEvent.name event) l ]
      | None => []
      end.
Proof. by rewrite registerEvent_run. Qed.

(** C10.  Routing an emitted event (ready, a text message, an interaction)
    leaves [prefix], [messageCommands] and [commands] as they were and
    performs no field write, also when the listener throws; [registerEvent],
    [login] and [getPrefix] leave the client unchanged as well. *)
Theorem routing_leaves_client_unchanged (this : WrappedClient) :
  (∀ e : Emitted,
     this_after (route e this) = this
     ∧ forallb (λ a, negb (is_write a)) (trace (route e this)) = true)
  ∧ (∀ event : ClientEvent.t, this_after (registerEvent event this) = this)
  ∧ (∀ token : string, this_after (login token this) = this)
  ∧ this_after (getPrefix this) = this.
Proof.
  repeat split.
  - destruct e; [done | apply messageCreate_frame | apply interactionCreate_frame].
  - destruct e; [done | apply messageCreate_frame | apply interactionCreate_frame].
  - intros event. by rewrite registerEvent_run.
Qed.

(** C2, the claim as stated fails.  The rule set of [greet] lists the flag
    ADMINISTRATOR and allows role [roleA]; the author holds no listed flag but
    holds [roleA].  Flag membership alone would deny; the listener goes on to
    the allow list and calls the callback. *)
Lemma flags_unmatched_allow_list_decides :
  Evaluates (Sample.client (Some Sample.rules_flags_and_allow)) Sample.greeting
    Sample.alice Sample.greet_callback ["alice"; "bob"]
    Sample.rules_flags_and_allow
  ∧ Permissions.flags Sample.rules_flags_and_allow = Some {[ "ADMINISTRATOR" ]}
  ∧ ¬ holds_flag Sample.alice {[ "ADMINISTRATOR" ]}
  ∧ messageCreate Sample.greeting
      (Sample.client (Some Sample.rules_flags_and_allow))
    = MkRun (Return tt) (Sample.client (Some Sample.rules_flags_and_allow))
        [Call Sample.greet_callback
           (MessageArgs Sample.greeting ["alice"; "bob"])].
Proof.
  split; [apply sample_evaluates|]. split; [done|]. split; [|done].
  by apply flags_match_false.
Qed.

(** C2, amended.  For a rule set with capability flags: an actor who holds
    at least one listed flag is allowed, whatever the allow and deny lists
    say; for an actor who holds none, the flags decide nothing, and when an
    allow or deny list is present the outcome is the one of the lists: deny
    if the actor holds a denied role, otherwise allow exactly if the actor
    holds an allowed role. *)
Theorem flags_decide_only_when_matched
    (this : WrappedClient) (message : Message) (author : GuildMember)
    (callback : Callback) (args : list string) (permissions : Permissions.t)
    (flags : gset PermissionString) :
  Evaluates this message author callback args permissions →
  Permissions.flags permissions = Some flags →
  (holds_flag author flags →
     messageCreate message this
     = MkRun (Return tt) this [Call callback (MessageArgs message args)])
  ∧ (¬ holds_flag author flags →
     is_Some (Permissions.allowed permissions)
       ∨ is_Some (Permissions.denied permissions) →
     messageCreate message this
     = MkRun (Return tt) this
         (if roles_match (Permissions.denied permissions) author then []
          else if roles_match (Permissions.allowed permissions) author
               then [Call callback (MessageArgs message args)]
               else [])).
Proof.
  intros Hev Hflags. split.
  - intros Hholds%flags_match_true. evaluate Hev. by rewrite Hflags, Hholds.
  - intros Hnone%flags_match_false Hlists. evaluate Hev.
    rewrite Hflags, Hnone.
    assert (negb (Js.present (Permissions.allowed permissions))
            && negb (Js.present (Permissions.denied permissions)) = false)
      as ->.
    { destruct Hlists as [[al ->] | [dn ->]]; [done|].
      by destruct (Permissions.allowed permissions). }
    destruct (roles_match (Permissions.denied permissions) author); [done|].
    by destruct (roles_match (Permissions.allowed permissions) author).
Qed.

Lemma flags_decide_only_when_matched_witness :
  messageCreate Sample.greeting
    (Sample.client (Some Sample.rules_flags_and_deny))
  = MkRun (Return tt) (Sample.client (Some Sample.rules_flags_and_deny))
      [Call Sample.greet_callback
         (MessageArgs Sample.greeting ["alice"; "bob"])].
Proof.
  apply (flags_decide_only_when_matched
           (Sample.client (Some Sample.rules_flags_and_deny)) Sample.greeting
           Sample.alice Sample.greet_callback ["alice"; "bob"]
           Sample.rules_flags_and_deny {[ "SEND_MESSAGES" ]}).
  - apply (Evaluates_intro _ _ _ _ _ _ "!greet"
             (Sample.greet (Some Sample.rules_flags_and_deny)));
      reflexivity.
  - reflexivity.
  - exists "SEND_MESSAGES". split; [apply list_elem_of_here | by apply elem_of_singleton].
Defined.

(** C3, the claim as stated fails.  A rule set whose flag set, allow list and
    deny list are all present and empty does not allow: no flag matches, the
    lists are there, no role matches, and the listener returns without
    calling the callback. *)
Lemma empty_sets_deny :
  Evaluates (Sample.client (Some Sample.rules_empty_sets)) Sample.greeting
    Sample.alice Sample.greet_callback ["alice"; "bob"] Sample.rules_empty_sets
  ∧ Permissions.flags Sample.rules_empty_sets = Some ∅
  ∧ Permissions.allowed Sample.rules_empty_sets = Some ∅
  ∧ Permissions.denied Sample.rules_empty_sets = Some ∅
  ∧ messageCreate Sample.greeting (Sample.client (Some Sample.rules_empty_sets))
    = MkRun (Return tt) (Sample.client (Some Sample.rules_empty_sets)) [].
Proof. split; [apply sample_evaluates | done]. Qed.

(** C3, amended.  A rule set that is present, whose flag set is absent or
    empty and whose allow list and deny list are both absent, evaluates to
    allow for every actor. *)
Theorem absent_lists_allow
    (this : WrappedClient) (message : Message) (author : GuildMember)
    (callback : Callback) (args : list string) (permissions : Permissions.t) :
  Evaluates this message author callback args permissions →
  Permissions.flags permissions = None
    ∨ Permissions.flags permissions = Some ∅ →
  Permissions.allowed permissions = None →
  Permissions.denied permissions = None →
  messageCreate message this
  = MkRun (Return tt) this [Call callback (MessageArgs message args)].
Proof.
  intros Hev Hflags Hallowed Hdenied. evaluate Hev.
  rewrite Hallowed, Hdenied.
  assert (flags_match (Permissions.flags permissions) author = false) as ->;
    [|done].
  destruct Hflags as [-> | ->]; [done|].
  apply flags_match_false. intros (perm & _ & Hin). set_solver.
Qed.

Lemma absent_lists_allow_witness :
  messageCreate Sample.greeting (Sample.client (Some Sample.rules_absent))
  = MkRun (Return tt) (Sample.client (Some Sample.rules_absent))
      [Call Sample.greet_callback
         (MessageArgs Sample.greeting ["alice"; "bob"])].
Proof.
  apply (absent_lists_allow (Sample.client (Some Sample.rules_absent))
           Sample.greeting Sample.alice Sample.greet_callback ["alice"; "bob"]
           Sample.rules_absent).
  - apply (Evaluates_intro _ _ _ _ _ _ "!greet"
             (Sample.greet (Some Sample.rules_absent)));
      reflexivity.
  - left. reflexivity.
  - reflexivity.
  - reflexivity.
Defined.

(** C4.  When the capability flags do not decide (there are none, or the
    actor holds none of them) and the deny list contains a role the actor
    holds, the callback is not called, whatever the allow list contains. *)
Theorem deny_list_takes_precedence
    (this : WrappedClient) (message : Message) (author : GuildMember)
    (callback : Callback) (args : list string) (permissions : Permissions.t)
    (denied : gset Snowflake) :
  Evaluates this message author callback args permissions →
  (∀ flags, Permissions.flags permissions = Some flags →
            ¬ holds_flag author flags) →
  Permissions.denied permissions = Some denied →
  holds_role author denied →
  messageCreate message this = MkRun (Return tt) this [].
Proof.
  intros Hev Hflags Hdenied Hholds%roles_match_true. evaluate Hev.
  assert (flags_match (Permissions.flags permissions) author = false) as ->.
  { destruct (Permissions.flags permissions) as [flags|]; [|done].
    by apply flags_match_false, Hflags. }
  rewrite Hdenied, Hholds.
  by destruct (Permissions.allowed permissions).
Qed.

Lemma deny_list_takes_precedence_witness :
  messageCreate Sample.greeting
    (Sample.client (Some Sample.rules_allow_and_deny))
  = MkRun (Return tt) (Sample.client (Some Sample.rules_allow_and_deny)) [].
Proof.
  apply (deny_list_takes_precedence
           (Sample.client (Some Sample.rules_allow_and_deny)) Sample.greeting
           Sample.alice Sample.greet_callback ["alice"; "bob"]
           Sample.rules_allow_and_deny {[ "roleA" ]}).
  - apply (Evaluates_intro _ _ _ _ _ _ "!greet"
             (Sample.greet (Some Sample.rules_allow_and_deny)));
      reflexivity.
  - intros flags Hflags. discriminate Hflags.
  - reflexivity.
  - exists "roleA", {| role_id := "roleA" |}.
    split; [reflexivity | by apply elem_of_singleton].
Defined.

(** A registration that returned [true] stored the command under its name. *)
Lemma registerMessageCommand_true (command : MessageCommand.t)
    (this : WrappedClient) :
  completion (registerMessageCommand command this) = Return true →
  messageCommands (this_after (registerMessageCommand command this))
    !! MessageCommand.name command = Some command.
Proof.
  unfold registerMessageCommand; run.
  destruct (Js.get _ _); try done.
  destruct (MessageCommand.getCallback command); [|done].
  intros _; cbn. apply lookup_insert_eq.
Qed.

Lemma registerCommandObject_true (command : Command.t) (this : WrappedClient) :
  completion (registerCommandObject command this) = Return true →
  commands (this_after (registerCommandObject command this))
    !! Command.name command = Some command.
Proof.
  unfold registerCommandObject; run.
  destruct (Js.get _ _); try done.
  destruct (Command.getCallback command); [|done].
  intros _.
  destruct (Command.class command); cbn;
    try apply lookup_insert_eq;
    destruct (Command.getGuildId command) as [g|]; cbn;
    try apply lookup_insert_eq;
    destruct (Js.truthy g); apply lookup_insert_eq.
Qed.

(** A registration under a name the registry already holds is rejected. *)
Lemma registerMessageCommand_taken (command first : MessageCommand.t)
    (this : WrappedClient) :
  messageCommands this !! MessageCommand.name command = Some first →
  registerMessageCommand command this
  = MkRun (Return false) this
      [ConsoleWarn ("A command with name [" +:+ MessageCommand.name command
                      +:+ "] already exists.")].
Proof.
  intros Hfirst. unfold registerMessageCommand; run.
  by rewrite (get_own _ _ _ Hfirst).
Qed.

Lemma registerCommandObject_taken (command first : Command.t)
    (this : WrappedClient) :
  commands this !! Command.name command = Some first →
  registerCommandObject command this
  = MkRun (Return false) this
      [ConsoleWarn ("A command with name [" +:+ Command.name command
                      +:+ "] already exists.")].
Proof.
  intros Hfirst. unfold registerCommandObject; run.
  by rewrite (get_own _ _ _ Hfirst).
Qed.

(** C5.  After a registration that succeeded, a second registration under
    the same identifier in the same namespace returns [false] and leaves the
    client unchanged, and a lookup of the identifier still finds the first
    definition; this holds for text commands and for interaction commands.
    A registration without a callback returns [false] and leaves the client
    unchanged as well. *)
Theorem second_registration_rejected (this : WrappedClient) :
  (∀ first second : MessageCommand.t,
     MessageCommand.name first = MessageCommand.name second →
     completion (registerMessageCommand first this) = Return true →
     let registered := this_after (registerMessageCommand first this) in
     completion (registerMessageCommand second registered) = Return false
     ∧ this_after (registerMessageCommand second registered) = registered
     ∧ Js.get (messageCommands
                 (this_after (registerMessageCommand second registered)))
         (MessageCommand.name second) = Js.Own first)
  ∧ (∀ first second : Command.t,
     Command.name first = Command.name second →
     completion (registerCommandObject first this) = Return true →
     let registered := this_after (registerCommandObject first this) in
     completion (registerCommandObject second registered) = Return false
     ∧ this_after (registerCommandObject second registered) = registered
     ∧ Js.get (commands
                 (this_after (registerCommandObject second registered)))
         (Command.name second) = Js.Own first)
  ∧ (∀ command : MessageCommand.t,
     MessageCommand.callback command = None →
     completion (registerMessageCommand command this) = Return false
     ∧ this_after (registerMessageCommand command this) = this)
  ∧ (∀ command : Command.t,
     Command.callback command = None →
     completion (registerCommandObject command this) = Return false
     ∧ this_after (registerCommandObject command this) = this).
Proof.
  split; [|split; [|split]].
  - intros first second Hname Htrue registered.
    pose proof (registerMessageCommand_true _ _ Htrue) as Hfirst.
    fold registered in Hfirst. rewrite Hname in Hfirst.
    rewrite (registerMessageCommand_taken _ _ _ Hfirst); cbn.
    by rewrite (get_own _ _ _ Hfirst).
  - intros first second Hname Htrue registered.
    pose proof (registerCommandObject_true _ _ Htrue) as Hfirst.
    fold registered in Hfirst. rewrite Hname in Hfirst.
    rewrite (registerCommandObject_taken _ _ _ Hfirst); cbn.
    by rewrite (get_own _ _ _ Hfirst).
  - intros command Hnone. unfold registerMessageCommand; run.
    destruct (Js.get _ _); try done.
    unfold MessageCommand.getCallback. by rewrite Hnone.
  - intros command Hnone. unfold registerCommandObject; run.
    destruct (Js.get _ _); try done.
    unfold Command.getCallback. by rewrite Hnone.
Qed.

Lemma second_registration_rejected_witness :
  completion
    (registerMessageCommand (Sample.greet (Some Sample.rules_absent))
       (Sample.client None)) = Return false
  ∧ this_after
      (registerMessageCommand (Sample.greet (Some Sample.rules_absent))
         (Sample.client None)) = Sample.client None
  ∧ Js.get
      (messageCommands
         (this_after
            (registerMessageCommand (Sample.greet (Some Sample.rules_absent))
               (Sample.client None))))
      "greet" = Js.Own (Sample.greet None).
Proof.
  apply (proj1 (second_registration_rejected (constructor None))
           (Sample.greet None) (Sample.greet (Some Sample.rules_absent))).
  - reflexivity.
  - reflexivity.
Defined.

(** C6.  A registration of an interaction command succeeds when its name is
    free and it has a callback.  It then first writes the registry, so that
    the client afterwards holds the command under its name and is otherwise
    as before, and after that, for a slash or context-menu command, queues
    exactly one payload: a guild payload (with the command's permissions)
    when the command has a guild id, a global payload otherwise; for a
    button or select menu it queues nothing.  Every other registration
    returns [false], queues no payload and leaves the client unchanged. *)
Theorem registerCommandObject_forwards_once (command : Command.t)
    (this : WrappedClient) :
  match Js.get (commands this) (Command.name command),
        Command.callback command with
  | Js.Undefined, Some _ =>
      completion (registerCommandObject command this) = Return true
      ∧ this_after (registerCommandObject command this)
        = {| prefix := prefix this;
             messageCommands := messageCommands this;
             commands := <[Command.name command := command]> (commands this) |}
      ∧ commands (this_after (registerCommandObject command this))
          !! Command.name command = Some command
      ∧ trace (registerCommandObject command this)
        = SetCommand (Command.name command) command
            :: filter is_payload (trace (registerCommandObject command this))
      ∧ filter is_payload (trace (registerCommandObject command this))
        = match Command.class command with
          | Command.SlashCommand | Command.ContextMenuCommand =>
              match Command.guildId command with
              | Some guildId =>
                  if Js.truthy guildId
                  then [AddGuildPayload guildId (Command.data command)
                          (Command.permissions command)]
                  else [AddGlobalPayload (Command.data command)]
              | None => [AddGlobalPayload (Command.data command)]
              end
          | Command.ButtonCommand | Command.SelectMenuCommand => []
          end
  | _, _ =>
      completion (registerCommandObject command this) = Return false
      ∧ filter is_payload (trace (registerCommandObject command this)) = []
      ∧ this_after (registerCommandObject command this) = this
  end.
Proof.
  unfold registerCommandObject; run.
  destruct (Js.get _ _); try by destruct (Command.callback command).
  destruct command as [class name [callback|] [guildId|] data permissions];
    try done; destruct class; cbn;
    try destruct (Js.truthy guildId); cbn;
    by rewrite lookup_insert_eq.
Qed.

(** C7.  With prefix [!], the content [!greet alice bob] splits into the
    command token [!greet], from which the prefix is stripped to give
    [greet], and the arguments [alice], [bob]; the listener then calls the
    callback of [greet] with the message and those two arguments.  In
    general, whenever the listener calls a callback it calls exactly one,
    that of the command named by the first token without the prefix, with
    the original message and the tokens after the first. *)
Theorem messageCreate_passes_remaining_tokens :
  (Js.shift (Js.split "!greet alice bob" " ")
     = (Some "!greet", ["alice"; "bob"])
   ∧ Js.startsWith "!greet" "!" = true
   ∧ Js.substring "!greet" (String.length "!") = "greet"
   ∧ messageCreate Sample.greeting (Sample.client None)
     = MkRun (Return tt) (Sample.client None)
         [Call Sample.greet_callback
            (MessageArgs Sample.greeting ["alice"; "bob"])])
  ∧ ∀ (this : WrappedClient) (message : Message),
      trace (messageCreate message this) = []
      ∨ ∃ command args commandData callback,
          Js.shift (Js.split (content message) " ") = (Some command, args)
          ∧ Js.startsWith command (prefix this) = true
          ∧ messageCommands this
              !! Js.substring command (String.length (prefix this))
            = Some commandData
          ∧ MessageCommand.callback commandData = Some callback
          ∧ trace (messageCreate message this)
            = [Call callback (MessageArgs message args)].
Proof.
  split; [done|].
  intros this message. unfold messageCreate; run.
  destruct (Js.shift _) as [[command|] args] eqn:Htokens; [|by left].
  destruct (Js.truthy command); [|by left]. cbn.
  destruct (Js.startsWith _ _) eqn:Hprefix; [|by left].
  unfold Js.get.
  destruct (messageCommands this !! _) as [commandData|] eqn:Hlookup.
  - destruct (member message) as [author|]; [|by left].
    destruct (bot (user author)); [by left|].
    unfold MessageCommand.getCallback, MessageCommand.getPermissions.
    destruct (MessageCommand.callback commandData) as [callback|] eqn:Hcallback;
      [|by left].
    destruct (MessageCommand.permissions commandData) as [permissions|];
      [|right; by exists command, args, commandData, callback].
    destruct (flags_match _ _);
      [right; by exists command, args, commandData, callback|].
    destruct (negb _ && negb _);
      [right; by exists command, args, commandData, callback|].
    destruct (roles_match (Permissions.denied permissions) author); [by left|].
    destruct (roles_match (Permissions.allowed permissions) author);
      [right; by exists command, args, commandData, callback | by left].
  - case_bool_decide; [|by left].
    destruct (member message) as [author|]; [|by left].
    by destruct (bot (user author)); left.
Qed.

(** ** Further helper lemmas *)

Lemma startsWith_app (p s : string) : Js.startsWith (p +:+ s) p = true.
Proof.
  induction p as [|c p IH]; [by destruct s|].
  change (Js.startsWith (String c (p +:+ s)) (String c p) = true).
  cbn. by rewrite decide_True.
Qed.

Lemma substring_app (p s : string) :
  Js.substring (p +:+ s) (String.length p) = s.
Proof. induction p as [|c p IH]; [by destruct s | exact IH]. Qed.

Lemma truthy_app (p s : string) :
  Js.truthy (p +:+ s) = Js.truthy p || Js.truthy s.
Proof. by destruct p. Qed.

Lemma split_not_nil (s : string) (sep : ascii) : Js.split s sep ≠ [].
Proof.
  induction s as [|c s IH]; cbn; [done|].
  case_decide; [done|]. by destruct (Js.split s sep).
Qed.

Lemma join_split (s : string) (sep : ascii) :
  join (Js.split s sep) (String sep EmptyString) = s.
Proof.
  induction s as [|c s IH]; cbn; [done|].
  pose proof (split_not_nil s sep) as Hne.
  case_decide as Hc.
  - subst c. destruct (Js.split s sep) as [|w ws]; [done|].
    cbn in *. by rewrite IH.
  - destruct (Js.split s sep) as [|w ws]; [done|].
    destruct ws as [|w' ws]; cbn in *; by rewrite <- IH.
Qed.

Lemma split_pieces (s : string) (sep : ascii) :
  Forall (λ w, contains w sep = false) (Js.split s sep).
Proof.
  induction s as [|c s IH]; cbn; [by constructor|].
  case_decide as Hc; [by constructor|].
  destruct (Js.split s sep) as [|w ws]; [by constructor; cbn; [case_decide|]|].
  inversion IH as [|? ? Hw Hws]; subst. constructor; [|done].
  cbn. by case_decide.
Qed.

Lemma get_inherited {A} (o : gmap string A) (k : string) :
  o !! k = None → k ∈ Js.Object_prototype → Js.get o k = Js.Inherited.
Proof. unfold Js.get. intros -> Hk. by rewrite bool_decide_eq_true_2. Qed.

Lemma get_not_undefined {A} (o : gmap string A) (k : string) :
  k ∈ Js.Object_prototype → Js.get o k ≠ Js.Undefined.
Proof.
  unfold Js.get. intros Hk. destruct (o !! k); [done|].
  by rewrite bool_decide_eq_true_2.
Qed.

(** What a text registration does to the client. *)
Lemma registerMessageCommand_after (command : MessageCommand.t)
    (this : WrappedClient) :
  this_after (registerMessageCommand command this)
  = match Js.get (messageCommands this) (MessageCommand.name command),
          MessageCommand.callback command with
    | Js.Undefined, Some _ =>
        {| prefix := prefix this;
           messageCommands :=
             <[MessageCommand.name command := command]> (messageCommands this);
           commands := commands this |}
    | _, _ => this
    end.
Proof.
  unfold registerMessageCommand; run.
  destruct (Js.get _ _); try by destruct (MessageCommand.callback command).
  unfold MessageCommand.getCallback.
  by destruct (MessageCommand.callback command).
Qed.

Lemma registerCommandObject_after (command : Command.t) (this : WrappedClient) :
  this_after (registerCommandObject command this)
  = match Js.get (commands this) (Command.name command),
          Command.callback command with
    | Js.Undefined, Some _ =>
        {| prefix := prefix this;
           messageCommands := messageCommands this;
           commands := <[Command.name command := command]> (commands this) |}
    | _, _ => this
    end.
Proof.
  unfold registerCommandObject; run.
  destruct (Js.get _ _); try by destruct (Command.callback command).
  destruct command as [class name [callback|] [guildId|] data permissions];
    try done; destruct class; try done; cbn;
    by destruct (Js.truthy guildId).
Qed.

Lemma route_after (e : Emitted) (this : WrappedClient) :
  this_after (route e this) = this.
Proof.
  destruct e; [done | apply messageCreate_frame | apply interactionCreate_frame].
Qed.

(** The four guarded blocks of the [interactionCreate] listener act as one
    dispatch on the looked-up key. *)
Lemma interactionCreate_run (i : Interaction) (this : WrappedClient) :
  interactionCreate i this
  = match lookup_key i, arguments_of i with
    | Some key, Some a =>
        match Js.get (commands this) key with
        | Js.Own command =>
            MkRun (Return tt) this
              match Command.callback command with
              | Some callback => [Call callback a]
              | None => []
              end
        | Js.Inherited => MkRun (Return tt) this []
        | Js.Undefined =>
            MkRun (Throw (Js.TypeError
                     "Cannot read properties of undefined (reading 'callback')"))
              this []
        end
    | _, _ => MkRun (Return tt) this []
    end.
Proof.
  destruct i; unfold interactionCreate, callback_of; run; try done;
    match goal with
    | |- context [Js.get ?o ?k] =>
        destruct (Js.get o k) as [[? ? [?|] ? ? ?]| |]
    end; done.
Qed.

(** A message that reaches a registered command without a rule set. *)
Lemma messageCreate_run_unrestricted (this : WrappedClient) (message : Message)
    (command : string) (args : list string) (commandData : MessageCommand.t)
    (author : GuildMember) (callback : Callback) :
  Js.shift (Js.split (content message) " ") = (Some command, args) →
  Js.truthy command = true →
  Js.startsWith command (prefix this) = true →
  messageCommands this !! Js.substring command (String.length (prefix this))
    = Some commandData →
  member message = Some author →
  bot (user author) = false →
  MessageCommand.callback commandData = Some callback →
  MessageCommand.permissions commandData = None →
  messageCreate message this
  = MkRun (Return tt) this [Call callback (MessageArgs message args)].
Proof.
  intros Htokens Htruthy Hprefix Hlookup Hmember Hbot Hcallback Hpermissions.
  unfold messageCreate; run.
  rewrite Htokens, Htruthy, Hprefix; cbn.
  rewrite (get_own _ _ _ Hlookup), Hmember, Hbot.
  unfold MessageCommand.getCallback, MessageCommand.getPermissions.
  by rewrite Hcallback, Hpermissions.
Qed.

Lemma apply_op_prefix_registries (op : Op) (this : WrappedClient) :
  match op with
  | OpSetPrefix p =>
      apply_op op this
      = {| prefix := p; messageCommands := messageCommands this;
           commands := commands this |}
  | OpRegisterMessageCommand command =>
      apply_op op this = this_after (registerMessageCommand command this)
  | OpRegisterCommandObject command =>
      apply_op op this = this_after (registerCommandObject command this)
  | _ => apply_op op this = this
  end.
Proof.
  destruct op; cbn; try done.
  - by rewrite registerEvent_run.
  - apply route_after.
Qed.

Lemma registry_ok_apply_op (op : Op) (this : WrappedClient) :
  registry_ok this → registry_ok (apply_op op this).
Proof.
  intros [Htext Hcommands].
  pose proof (apply_op_prefix_registries op this) as Hop.
  destruct op as [p|event|command|command|token|e]; rewrite Hop; try done.
  - rewrite registerMessageCommand_after.
    destruct (Js.get _ _) eqn:Hget; try done.
    destruct (MessageCommand.callback command) as [callback|] eqn:Hcallback;
      [|done].
    apply get_undefined in Hget as [_ Hreserved].
    split; [|done]. cbn. intros k c [[<- <-] | [_ Hold]]%lookup_insert_Some.
    + by rewrite Hcallback.
    + by apply Htext.
  - rewrite registerCommandObject_after.
    destruct (Js.get _ _) eqn:Hget; try done.
    destruct (Command.callback command) as [callback|] eqn:Hcallback; [|done].
    apply get_undefined in Hget as [_ Hreserved].
    split; [done|]. cbn. intros k c [[<- <-] | [_ Hold]]%lookup_insert_Some.
    + by rewrite Hcallback.
    + by apply Hcommands.
Qed.

Lemma registry_ok_apply_ops (ops : list Op) (this : WrappedClient) :
  registry_ok this → registry_ok (apply_ops ops this).
Proof.
  revert this. induction ops as [|op ops IH]; intros this Hok; [done|].
  cbn. by apply IH, registry_ok_apply_op.
Qed.

Lemma registry_ok_constructor (p : option string) : registry_ok (constructor p).
Proof. split; intros k c Hk; cbn in Hk; by rewrite lookup_empty in Hk. Qed.

(** An operation never replaces or removes a registered definition. *)
Lemma apply_op_keeps (op : Op) (this : WrappedClient) :
  (∀ k v, messageCommands this !! k = Some v →
          messageCommands (apply_op op this) !! k = Some v)
  ∧ (∀ k v, commands this !! k = Some v →
            commands (apply_op op this) !! k = Some v).
Proof.
  pose proof (apply_op_prefix_registries op this) as Hop.
  destruct op as [p|event|command|command|token|e]; rewrite Hop; try done.
  - rewrite registerMessageCommand_after.
    destruct (Js.get _ _) eqn:Hget; try done.
    destruct (MessageCommand.callback command); [|done].
    apply get_undefined in Hget as [Hfree _].
    split; [|done]. cbn. intros k v Hk.
    rewrite lookup_insert_ne; [done|]. intros <-. by rewrite Hfree in Hk.
  - rewrite registerCommandObject_after.
    destruct (Js.get _ _) eqn:Hget; try done.
    destruct (Command.callback command); [|done].
    apply get_undefined in Hget as [Hfree _].
    split; [done|]. cbn. intros k v Hk.
    rewrite lookup_insert_ne; [done|]. intros <-. by rewrite Hfree in Hk.
Qed.

(** The payload calls of one operation. *)
Lemma trace_op_payloads (op : Op) (this : WrappedClient) :
  length (filter is_payload (trace_op op this))
  = match op with
    | OpRegisterCommandObject command =>
        match Js.get (commands this) (Command.name command),
              Command.callback command with
        | Js.Undefined, Some _ => if forwarded command then 1 else 0
        | _, _ => 0
        end
    | _ => 0
    end.
Proof.
  destruct op as [p|event|command|command|token|e]; cbn; try done.
  - rewrite registerEvent_run; cbn.
    destruct (ClientEvent.callback event); [|done].
    by destruct (ClientEvent.once event).
  - unfold registerMessageCommand; run.
    destruct (Js.get _ _); try done.
    by destruct (MessageCommand.getCallback command).
  - unfold registerCommandObject, forwarded; run.
    destruct (Js.get _ _); try by destruct (Command.callback command).
    destruct command as [class name [callback|] [guildId|] data permissions];
      try done; destruct class; try done; cbn;
      by destruct (Js.truthy guildId).
  - destruct e as [|message|i]; cbn; [done| |].
    + unfold messageCreate; run.
      destruct (Js.shift _) as [[command|] args]; [|done].
      destruct (Js.truthy command && _); [|done].
      destruct (Js.get _ _) as [[? [?|] [[fl al dn]|]]| |];
        destruct (member message) as [author|]; try done;
        destruct (bot (user author)); try done; cbn.
      destruct (flags_match _ _); [done|].
      destruct (negb _ && negb _); [done|].
      destruct (roles_match dn author); [done|].
      by destruct (roles_match al author).
    + rewrite interactionCreate_run.
      destruct (lookup_key i), (arguments_of i); try done.
      destruct (Js.get _ _) as [[? ? [?|] ? ? ?]| |]; done.
Qed.

(** A text message calls at most one callback, with the message itself and
    the tokens after the first. *)
Lemma messageCreate_trace (message : Message) (this : WrappedClient) :
  trace (messageCreate message this) = []
  ∨ ∃ command args callback,
      Js.shift (Js.split (content message) " ") = (Some command, args)
      ∧ trace (messageCreate message this)
        = [Call callback (MessageArgs message args)].
Proof.
  unfold messageCreate; run.
  destruct (Js.shift _) as [[command|] args] eqn:Htokens; [|by left].
  destruct (Js.truthy command && _); [|by left].
  destruct (Js.get _ _) as [[? [callback|] [[fl al dn]|]]| |];
    destruct (member message) as [author|]; try (by left);
    destruct (bot (user author)); try (by left); cbn;
    try (right; by exists command, args, callback).
  destruct (flags_match _ _); [right; by exists command, args, callback|].
  destruct (negb _ && negb _); [right; by exists command, args, callback|].
  destruct (roles_match dn author); [by left|].
  destruct (roles_match al author);
    [right; by exists command, args, callback | by left].
Qed.

(** ** Further properties of the text listener *)

(** X1.  A message whose first token is empty or does not start with the
    prefix is ignored: nothing is called, nothing is thrown, the client is
    unchanged, whatever is registered. *)
Theorem messageCreate_without_prefix_ignored (this : WrappedClient)
    (message : Message) (command : string) (args : list string) :
  Js.shift (Js.split (content message) " ") = (Some command, args) →
  Js.truthy command && Js.startsWith command (prefix this) = false →
  messageCreate message this = MkRun (Return tt) this [].
Proof.
  intros Htokens Hprefix. unfold messageCreate; run.
  by rewrite Htokens, Hprefix.
Qed.

Lemma messageCreate_without_prefix_ignored_witness :
  messageCreate (Scenario.says "greet alice" (Some Sample.alice))
    (Sample.client None)
  = MkRun (Return tt) (Sample.client None) [].
Proof.
  apply (messageCreate_without_prefix_ignored (Sample.client None)
           (Scenario.says "greet alice" (Some Sample.alice))
           "greet" ["alice"]).
  - reflexivity.
  - reflexivity.
Defined.

(** X2.  A message that carries the prefix but names no registered command
    (and no member of [Object.prototype]) is ignored without an error. *)
Theorem messageCreate_unregistered_ignored (this : WrappedClient)
    (message : Message) (command : string) (args : list string) :
  Js.shift (Js.split (content message) " ") = (Some command, args) →
  Js.get (messageCommands this)
    (Js.substring command (String.length (prefix this))) = Js.Undefined →
  messageCreate message this = MkRun (Return tt) this [].
Proof.
  intros Htokens Hget. unfold messageCreate; run.
  rewrite Htokens, Hget. by destruct (Js.truthy command && _).
Qed.

Lemma messageCreate_unregistered_ignored_witness :
  messageCreate (Scenario.says "!vote now" (Some Sample.alice))
    (Sample.client None)
  = MkRun (Return tt) (Sample.client None) [].
Proof.
  apply (messageCreate_unregistered_ignored (Sample.client None)
           (Scenario.says "!vote now" (Some Sample.alice)) "!vote" ["now"]).
  - reflexivity.
  - reflexivity.
Defined.

(** X3.  A message without a guild member (a direct message) or written by
    a bot is ignored, whatever it says and whatever is registered. *)
Theorem messageCreate_from_bot_ignored (this : WrappedClient)
    (message : Message) :
  member message = None
    ∨ (∃ author, member message = Some author ∧ bot (user author) = true) →
  messageCreate message this = MkRun (Return tt) this [].
Proof.
  intros Hauthor. unfold messageCreate; run.
  destruct (Js.shift _) as [[command|] args]; [|done].
  destruct (Js.truthy command && _); [|done].
  destruct Hauthor as [-> | (author & -> & ->)];
    by destruct (Js.get _ _).
Qed.

Lemma messageCreate_from_bot_ignored_witness :
  messageCreate (Scenario.says "!greet alice bob" (Some Scenario.robot))
    (Sample.client None)
  = MkRun (Return tt) (Sample.client None) [].
Proof.
  apply (messageCreate_from_bot_ignored (Sample.client None)
           (Scenario.says "!greet alice bob" (Some Scenario.robot))).
  right. exists Scenario.robot. split; reflexivity.
Defined.

(** X4.  On every client reached from a new one by any operations, a message
    of a member that is not a bot whose first token is the prefix followed by
    the name of a member of [Object.prototype] makes the listener throw: the
    lookup finds the inherited member, which has no [getCallback]. *)
Theorem messageCreate_prototype_name_throws (p : option string)
    (ops : list Op) (message : Message) (key : string) (args : list string)
    (author : GuildMember) :
  key ∈ Js.Object_prototype →
  Js.shift (Js.split (content message) " ")
    = (Some (prefix (apply_ops ops (constructor p)) +:+ key), args) →
  member message = Some author →
  bot (user author) = false →
  messageCreate message (apply_ops ops (constructor p))
  = MkRun (Throw (Js.TypeError "commandData.getCallback is not a function"))
      (apply_ops ops (constructor p)) [].
Proof.
  intros Hkey Htokens Hmember Hbot.
  pose proof (registry_ok_apply_ops ops _ (registry_ok_constructor p))
    as [Htext _].
  set (this := apply_ops ops (constructor p)) in *.
  assert (messageCommands this !! key = None) as Hfree.
  { destruct (messageCommands this !! key) as [c|] eqn:Hc; [|done].
    by destruct (Htext _ _ Hc) as (_ & _ & Hnot). }
  assert (Js.truthy (prefix this +:+ key) = true) as Htruthy.
  { rewrite truthy_app. destruct key; [|by rewrite orb_true_r].
    apply (bool_decide_pack _) in Hkey. by vm_compute in Hkey. }
  unfold messageCreate; run.
  rewrite Htokens, Htruthy, startsWith_app, substring_app; cbn.
  by rewrite (get_inherited _ _ Hfree Hkey), Hmember, Hbot.
Qed.

Lemma messageCreate_prototype_name_throws_witness :
  messageCreate (Scenario.says "!constructor" (Some Sample.alice))
    (apply_ops [OpRegisterMessageCommand (Sample.greet None)]
       (constructor None))
  = MkRun (Throw (Js.TypeError "commandData.getCallback is not a function"))
      (apply_ops [OpRegisterMessageCommand (Sample.greet None)]
         (constructor None)) [].
Proof.
  apply (messageCreate_prototype_name_throws None
           [OpRegisterMessageCommand (Sample.greet None)]
           (Scenario.says "!constructor" (Some Sample.alice))
           "constructor" [] Sample.alice).
  - apply list_elem_of_here.
  - reflexivity.
  - reflexivity.
  - reflexivity.
Defined.

(** X5.  The text listener throws only in that situation: the first token
    carries the prefix, the rest of it names a member of [Object.prototype]
    that is not registered, and the author is a guild member that is not a
    bot. *)
Theorem messageCreate_throws_only_on_prototype_name (this : WrappedClient)
    (message : Message) (e : Js.Error) :
  completion (messageCreate message this) = Throw e →
  ∃ command args author,
    Js.shift (Js.split (content message) " ") = (Some command, args)
    ∧ Js.startsWith command (prefix this) = true
    ∧ Js.substring command (String.length (prefix this)) ∈ Js.Object_prototype
    ∧ messageCommands this
        !! Js.substring command (String.length (prefix this)) = None
    ∧ member message = Some author
    ∧ bot (user author) = false.
Proof.
  unfold messageCreate; run.
  destruct (Js.shift _) as [[command|] args] eqn:Htokens; [|done].
  destruct (Js.truthy command); [|done]. cbn.
  destruct (Js.startsWith _ _) eqn:Hprefix; [|done].
  unfold Js.get.
  destruct (messageCommands this !! _) as [[? [?|] [[fl al dn]|]]|] eqn:Hlookup.
  - destruct (member message) as [author|]; [|done].
    destruct (bot (user author)); [done|]. cbn.
    destruct (flags_match _ _); [done|].
    destruct (negb _ && negb _); [done|].
    destruct (roles_match dn author); [done|].
    by destruct (roles_match al author).
  - destruct (member message) as [author|]; [|done].
    by destruct (bot (user author)).
  - destruct (member message) as [author|]; [|done].
    by destruct (bot (user author)).
  - destruct (member message) as [author|]; [|done].
    by destruct (bot (user author)).
  - case_bool_decide as Hkey; [|done].
    destruct (member message) as [author|] eqn:Hmember; [|done].
    destruct (bot (user author)) eqn:Hbot; [done|].
    intros _. by exists command, args, author.
Qed.

Lemma messageCreate_throws_only_on_prototype_name_witness :
  ∃ command args author,
    Js.shift (Js.split "!constructor" " ") = (Some command, args)
    ∧ Js.startsWith command "!" = true
    ∧ Js.substring command 1 ∈ Js.Object_prototype
    ∧ messageCommands (Sample.client None) !! Js.substring command 1 = None
    ∧ Some Sample.alice = Some author
    ∧ bot (user author) = false.
Proof.
  apply (messageCreate_throws_only_on_prototype_name (Sample.client None)
           (Scenario.says "!constructor" (Some Sample.alice))
           (Js.TypeError "commandData.getCallback is not a function")).
  reflexivity.
Defined.

(** X6.  The arguments of a call rejoin to the message: when the listener
    calls a callback, it passes the message it received and, as arguments,
    exactly the tokens after the first token of the content; neither the
    first token nor any argument contains a space, and the first token and
    the arguments joined by single spaces are the content (so consecutive
    spaces show up as empty arguments). *)
Theorem messageCreate_arguments_rejoin (this : WrappedClient)
    (message m : Message) (callback : Callback) (args : list string) :
  Call callback (MessageArgs m args) ∈ trace (messageCreate message this) →
  m = message
  ∧ ∃ command,
      Js.shift (Js.split (content message) " ") = (Some command, args)
      ∧ contains command " " = false
      ∧ Forall (λ a, contains a " " = false) args
      ∧ content message = join (command :: args) " ".
Proof.
  intros Hcall.
  destruct (messageCreate_trace message this)
    as [Hnone | (command & args' & callback' & Htokens & Hone)].
  - rewrite Hnone in Hcall. by apply elem_of_nil in Hcall.
  - rewrite Hone in Hcall. apply list_elem_of_singleton in Hcall.
    injection Hcall as -> -> ->. split; [done|].
    exists command. split; [done|].
    pose proof (split_pieces (content message) " ") as Hpieces.
    pose proof (join_split (content message) " ") as Hjoin.
    destruct (Js.split (content message) " ") as [|w ws]; [done|].
    cbn in Htokens. injection Htokens as -> ->.
    by inversion Hpieces.
Qed.

Lemma messageCreate_arguments_rejoin_witness :
  Sample.greeting = Sample.greeting
  ∧ ∃ command,
      Js.shift (Js.split (content Sample.greeting) " ")
        = (Some command, ["alice"; "bob"])
      ∧ contains command " " = false
      ∧ Forall (λ a, contains a " " = false) ["alice"; "bob"]
      ∧ content Sample.greeting = join [command; "alice"; "bob"] " ".
Proof.
  apply (messageCreate_arguments_rejoin (Sample.client None) Sample.greeting
           Sample.greeting Sample.greet_callback ["alice"; "bob"]).
  apply list_elem_of_here.
Defined.

(** ** Further properties of the permission evaluation *)

(** X7.  A rule set with a deny list and no allow list lets nobody through
    unless a capability flag matches: also an actor who holds no denied role
    is turned away. *)
Theorem deny_only_rule_set_denies_everyone
    (this : WrappedClient) (message : Message) (author : GuildMember)
    (callback : Callback) (args : list string) (permissions : Permissions.t)
    (denied : gset Snowflake) :
  Evaluates this message author callback args permissions →
  (∀ flags, Permissions.flags permissions = Some flags →
            ¬ holds_flag author flags) →
  Permissions.allowed permissions = None →
  Permissions.denied permissions = Some denied →
  messageCreate message this = MkRun (Return tt) this [].
Proof.
  intros Hev Hflags Hallowed Hdenied. evaluate Hev.
  assert (flags_match (Permissions.flags permissions) author = false) as ->.
  { destruct (Permissions.flags permissions) as [flags|]; [|done].
    by apply flags_match_false, Hflags. }
  rewrite Hallowed, Hdenied; cbn.
  by destruct (Js.some _ _).
Qed.

Lemma deny_only_rule_set_denies_everyone_witness :
  ¬ holds_role Sample.alice {[ "roleZ" ]}
  ∧ messageCreate Sample.greeting
      (Sample.client (Some Scenario.rules_deny_only))
    = MkRun (Return tt) (Sample.client (Some Scenario.rules_deny_only)) [].
Proof.
  split.
  - intros Hholds. apply roles_match_true in Hholds. vm_compute in Hholds. discriminate Hholds.
  - apply (deny_only_rule_set_denies_everyone
             (Sample.client (Some Scenario.rules_deny_only)) Sample.greeting
             Sample.alice Sample.greet_callback ["alice"; "bob"]
             Scenario.rules_deny_only {[ "roleZ" ]}).
    + apply (Evaluates_intro _ _ _ _ _ _ "!greet"
               (Sample.greet (Some Scenario.rules_deny_only)));
        reflexivity.
    + intros flags Hflags. discriminate Hflags.
    + reflexivity.
    + reflexivity.
Defined.

(** X8.  A rule set without an allow list and without a deny list lets
    every actor through, whatever its capability flags are and whether or
    not the actor holds one of them. *)
Theorem rule_set_without_lists_allows_everyone
    (this : WrappedClient) (message : Message) (author : GuildMember)
    (callback : Callback) (args : list string) (permissions : Permissions.t) :
  Evaluates this message author callback args permissions →
  Permissions.allowed permissions = None →
  Permissions.denied permissions = None →
  messageCreate message this
  = MkRun (Return tt) this [Call callback (MessageArgs message args)].
Proof.
  intros Hev Hallowed Hdenied. evaluate Hev.
  rewrite Hallowed, Hdenied; cbn.
  by destruct (flags_match _ _).
Qed.

Lemma rule_set_without_lists_allows_everyone_witness :
  ¬ holds_flag Sample.alice {[ "ADMINISTRATOR" ]}
  ∧ messageCreate Sample.greeting
      (Sample.client (Some Scenario.rules_flags_only))
    = MkRun (Return tt) (Sample.client (Some Scenario.rules_flags_only))
        [Call Sample.greet_callback
           (MessageArgs Sample.greeting ["alice"; "bob"])].
Proof.
  split.
  - apply flags_match_false. reflexivity.
  - apply (rule_set_without_lists_allows_everyone
             (Sample.client (Some Scenario.rules_flags_only)) Sample.greeting
             Sample.alice Sample.greet_callback ["alice"; "bob"]
             Scenario.rules_flags_only).
    + apply (Evaluates_intro _ _ _ _ _ _ "!greet"
               (Sample.greet (Some Scenario.rules_flags_only)));
        reflexivity.
    + reflexivity.
    + reflexivity.
Defined.

(** X9.  When no capability flag matches and the actor holds no denied
    role, an allow list decides: the callback is called if the actor holds
    a role of the list and not called otherwise. *)
Theorem allow_list_decides
    (this : WrappedClient) (message : Message) (author : GuildMember)
    (callback : Callback) (args : list string) (permissions : Permissions.t)
    (allowed : gset Snowflake) :
  Evaluates this message author callback args permissions →
  (∀ flags, Permissions.flags permissions = Some flags →
            ¬ holds_flag author flags) →
  (∀ denied, Permissions.denied permissions = Some denied →
             ¬ holds_role author denied) →
  Permissions.allowed permissions = Some allowed →
  (holds_role author allowed →
     messageCreate message this
     = MkRun (Return tt) this [Call callback (MessageArgs message args)])
  ∧ (¬ holds_role author allowed →
     messageCreate message this = MkRun (Return tt) this []).
Proof.
  intros Hev Hflags Hdenied Hallowed.
  assert (flags_match (Permissions.flags permissions) author = false) as Hf.
  { destruct (Permissions.flags permissions) as [flags|]; [|done].
    by apply flags_match_false, Hflags. }
  assert (roles_match (Permissions.denied permissions) author = false) as Hd.
  { destruct (Permissions.denied permissions) as [denied|]; [|done].
    destruct (roles_match (Some denied) author) eqn:Hm; [|done].
    apply roles_match_true in Hm. by destruct (Hdenied denied). }
  split; intros Hholds; evaluate Hev; rewrite Hf, Hd, Hallowed; cbn.
  - apply roles_match_true in Hholds. unfold roles_match in Hholds.
    by rewrite Hholds.
  - destruct (Js.some _ _) eqn:Hm; [|done].
    destruct Hholds. by apply roles_match_true.
Qed.

Lemma allow_list_decides_witness :
  messageCreate
    (Scenario.says "!greet alice bob" (Some Scenario.bob))
    (Sample.client (Some Scenario.rules_allow_only))
  = MkRun (Return tt) (Sample.client (Some Scenario.rules_allow_only)) [].
Proof.
  apply (allow_list_decides
           (Sample.client (Some Scenario.rules_allow_only))
           (Scenario.says "!greet alice bob" (Some Scenario.bob))
           Scenario.bob Sample.greet_callback ["alice"; "bob"]
           Scenario.rules_allow_only {[ "roleA" ]}).
  - apply (Evaluates_intro _ _ _ _ _ _ "!greet"
             (Sample.greet (Some Scenario.rules_allow_only)));
      reflexivity.
  - intros flags Hflags. discriminate Hflags.
  - intros denied Hdenied. discriminate Hdenied.
  - reflexivity.
  - intros Hholds. apply roles_match_true in Hholds. vm_compute in Hholds. discriminate Hholds.
Defined.

(** ** Further properties of registration *)

(** X10.  A name that [Object.prototype] answers for cannot be registered,
    in either namespace: the registration reports the name as taken, returns
    [false] and changes nothing. *)
Theorem reserved_names_cannot_be_registered (this : WrappedClient)
    (text : MessageCommand.t) (command : Command.t) :
  MessageCommand.name text ∈ Js.Object_prototype →
  Command.name command ∈ Js.Object_prototype →
  registerMessageCommand text this
  = MkRun (Return false) this
      [ConsoleWarn ("A command with name [" +:+ MessageCommand.name text
                      +:+ "] already exists.")]
  ∧ registerCommandObject command this
    = MkRun (Return false) this
        [ConsoleWarn ("A command with name [" +:+ Command.name command
                        +:+ "] already exists.")].
Proof.
  intros Htext Hcommand. split.
  - pose proof (get_not_undefined (messageCommands this) _ Htext) as Hget.
    unfold registerMessageCommand; run. by destruct (Js.get _ _).
  - pose proof (get_not_undefined (commands this) _ Hcommand) as Hget.
    unfold registerCommandObject; run. by destruct (Js.get _ _).
Qed.

Lemma reserved_names_cannot_be_registered_witness :
  registerMessageCommand
    {| MessageCommand.name := "toString";
       MessageCommand.callback := Some Sample.greet_callback;
       MessageCommand.permissions := None |} (constructor None)
  = MkRun (Return false) (constructor None)
      [ConsoleWarn "A command with name [toString] already exists."]
  ∧ registerCommandObject
      {| Command.class := Command.ButtonCommand;
         Command.name := "valueOf";
         Command.callback := Some Sample.report_callback;
         Command.guildId := None;
         Command.data := Data 0;
         Command.permissions := None |} (constructor None)
    = MkRun (Return false) (constructor None)
        [ConsoleWarn "A command with name [valueOf] already exists."].
Proof.
  apply (reserved_names_cannot_be_registered (constructor None)
           {| MessageCommand.name := "toString";
              MessageCommand.callback := Some Sample.greet_callback;
              MessageCommand.permissions := None |}
           {| Command.class := Command.ButtonCommand;
              Command.name := "valueOf";
              Command.callback := Some Sample.report_callback;
              Command.guildId := None;
              Command.data := Data 0;
              Command.permissions := None |}).
  - apply (bool_decide_unpack _). reflexivity.
  - apply (bool_decide_unpack _). reflexivity.
Defined.

(** X11.  On every client reached from a new one by any operations, each
    registered definition, text or interaction, sits under its own name, has
    a callback, and has a name that [Object.prototype] does not answer
    for. *)
Theorem reachable_registry_ok (p : option string) (ops : list Op) :
  registry_ok (apply_ops ops (constructor p)).
Proof. apply registry_ok_apply_ops, registry_ok_constructor. Qed.

(** X12.  A registered definition is permanent: no sequence of operations
    replaces or removes it, in either namespace. *)
Theorem registrations_are_permanent (this : WrappedClient) (ops : list Op) :
  (∀ k v, messageCommands this !! k = Some v →
          messageCommands (apply_ops ops this) !! k = Some v)
  ∧ (∀ k v, commands this !! k = Some v →
            commands (apply_ops ops this) !! k = Some v).
Proof.
  revert this. induction ops as [|op ops IH]; intros this; [done|].
  destruct (apply_op_keeps op this) as [Htext Hcommands].
  destruct (IH (apply_op op this)) as [IHtext IHcommands].
  split; intros k v Hk; cbn; [by apply IHtext, Htext | by apply IHcommands, Hcommands].
Qed.

Lemma registrations_are_permanent_witness :
  messageCommands
    (apply_ops
       [ OpRegisterMessageCommand (Sample.greet (Some Sample.rules_absent));
         OpSetPrefix "?";
         OpEmit (EmitMessageCreate Sample.greeting) ]
       (Sample.client None))
    !! "greet" = Some (Sample.greet None).
Proof.
  apply (proj1 (registrations_are_permanent (Sample.client None)
                  [ OpRegisterMessageCommand
                      (Sample.greet (Some Sample.rules_absent));
                    OpSetPrefix "?";
                    OpEmit (EmitMessageCreate Sample.greeting) ])).
  reflexivity.
Defined.

(** X13.  The two namespaces do not interact: a text registration does not
    change what a following interaction registration returns or does, and
    the other way round, so one name can be registered once in each. *)
Theorem namespaces_are_independent (this : WrappedClient)
    (text : MessageCommand.t) (command : Command.t) :
  completion
    (registerCommandObject command
       (this_after (registerMessageCommand text this)))
  = completion (registerCommandObject command this)
  ∧ trace
      (registerCommandObject command
         (this_after (registerMessageCommand text this)))
    = trace (registerCommandObject command this)
  ∧ completion
      (registerMessageCommand text
         (this_after (registerCommandObject command this)))
    = completion (registerMessageCommand text this)
  ∧ trace
      (registerMessageCommand text
         (this_after (registerCommandObject command this)))
    = trace (registerMessageCommand text this).
Proof.
  assert (commands (this_after (registerMessageCommand text this))
          = commands this) as Hc.
  { rewrite registerMessageCommand_after.
    destruct (Js.get _ _); try done.
    by destruct (MessageCommand.callback text). }
  assert (messageCommands (this_after (registerCommandObject command this))
          = messageCommands this) as Hm.
  { rewrite registerCommandObject_after.
    destruct (Js.get _ _); try done.
    by destruct (Command.callback command). }
  split; [|split; [|split]].
  - unfold registerCommandObject; run. rewrite Hc.
    destruct (Js.get _ _); try done.
    destruct (Command.getCallback command); [|done].
    destruct (Command.class command); try done;
      destruct (Command.getGuildId command) as [g|]; try done;
      by destruct (Js.truthy g).
  - unfold registerCommandObject; run. rewrite Hc.
    destruct (Js.get _ _); try done.
    destruct (Command.getCallback command); [|done].
    destruct (Command.class command); try done;
      destruct (Command.getGuildId command) as [g|]; try done;
      by destruct (Js.truthy g).
  - unfold registerMessageCommand; run. rewrite Hm.
    destruct (Js.get _ _); try done.
    by destruct (MessageCommand.getCallback text).
  - unfold registerMessageCommand; run. rewrite Hm.
    destruct (Js.get _ _); try done.
    by destruct (MessageCommand.getCallback text).
Qed.

(** ** Registration followed by dispatch *)

(** X14.  Registration and dispatch fit together: after a text registration
    that returned [true], a message of a member that is not a bot whose
    first token is the prefix followed by the command's name calls the
    command's callback with the remaining tokens, when the command has no
    rule set. *)
Theorem registered_text_command_is_dispatched (this : WrappedClient)
    (command : MessageCommand.t) (callback : Callback) (message : Message)
    (args : list string) (author : GuildMember) :
  completion (registerMessageCommand command this) = Return true →
  MessageCommand.callback command = Some callback →
  MessageCommand.permissions command = None →
  Js.shift (Js.split (content message) " ")
    = (Some (prefix this +:+ MessageCommand.name command), args) →
  Js.truthy (prefix this +:+ MessageCommand.name command) = true →
  member message = Some author →
  bot (user author) = false →
  messageCreate message (this_after (registerMessageCommand command this))
  = MkRun (Return tt) (this_after (registerMessageCommand command this))
      [Call callback (MessageArgs message args)].
Proof.
  intros Htrue Hcallback Hpermissions Htokens Htruthy Hmember Hbot.
  pose proof (registerMessageCommand_true _ _ Htrue) as Hlookup.
  assert (prefix (this_after (registerMessageCommand command this))
          = prefix this) as Hprefix.
  { rewrite registerMessageCommand_after.
    destruct (Js.get _ _); try done.
    by destruct (MessageCommand.callback command). }
  apply (messageCreate_run_unrestricted _ _
           (prefix this +:+ MessageCommand.name command) _ command author);
    try done.
  - rewrite Hprefix. apply startsWith_app.
  - by rewrite Hprefix, substring_app.
Qed.

Lemma registered_text_command_is_dispatched_witness :
  messageCreate Sample.greeting
    (this_after (registerMessageCommand (Sample.greet None) (constructor None)))
  = MkRun (Return tt)
      (this_after
         (registerMessageCommand (Sample.greet None) (constructor None)))
      [Call Sample.greet_callback
         (MessageArgs Sample.greeting ["alice"; "bob"])].
Proof.
  apply (registered_text_command_is_dispatched (constructor None)
           (Sample.greet None) Sample.greet_callback Sample.greeting
           ["alice"; "bob"] Sample.alice).
  - reflexivity.
  - reflexivity.
  - reflexivity.
  - reflexivity.
  - reflexivity.
  - reflexivity.
  - reflexivity.
Defined.

(** X15.  [setPrefix] changes which messages are dispatched and nothing
    else: after [setPrefix p], a registered command without a rule set is
    reached by the first token [p] followed by its name, and both
    registries are as before. *)
Theorem setPrefix_redirects_dispatch (this : WrappedClient) (p : string)
    (name : string) (command : MessageCommand.t) (callback : Callback)
    (message : Message) (args : list string) (author : GuildMember) :
  messageCommands this !! name = Some command →
  MessageCommand.callback command = Some callback →
  MessageCommand.permissions command = None →
  Js.shift (Js.split (content message) " ") = (Some (p +:+ name), args) →
  Js.truthy (p +:+ name) = true →
  member message = Some author →
  bot (user author) = false →
  messageCreate message (this_after (setPrefix p this))
  = MkRun (Return tt) (this_after (setPrefix p this))
      [Call callback (MessageArgs message args)]
  ∧ messageCommands (this_after (setPrefix p this)) = messageCommands this
  ∧ commands (this_after (setPrefix p this)) = commands this.
Proof.
  intros Hlookup Hcallback Hpermissions Htokens Htruthy Hmember Hbot.
  split; [|done].
  apply (messageCreate_run_unrestricted _ _ (p +:+ name) _ command author);
    try done.
  - apply startsWith_app.
  - cbn. by rewrite substring_app.
Qed.

Lemma setPrefix_redirects_dispatch_witness :
  messageCreate (Scenario.says "greet alice" (Some Sample.alice))
    (this_after (setPrefix "" (Sample.client None)))
  = MkRun (Return tt) (this_after (setPrefix "" (Sample.client None)))
      [Call Sample.greet_callback
         (MessageArgs (Scenario.says "greet alice" (Some Sample.alice))
            ["alice"])]
  ∧ messageCommands (this_after (setPrefix "" (Sample.client None)))
    = messageCommands (Sample.client None)
  ∧ commands (this_after (setPrefix "" (Sample.client None)))
    = commands (Sample.client None).
Proof.
  apply (setPrefix_redirects_dispatch (Sample.client None) "" "greet"
           (Sample.greet None) Sample.greet_callback
           (Scenario.says "greet alice" (Some Sample.alice)) ["alice"]
           Sample.alice).
  - reflexivity.
  - reflexivity.
  - reflexivity.
  - reflexivity.
  - reflexivity.
  - reflexivity.
  - reflexivity.
Defined.

(** X16.  After an interaction registration that returned [true], every
    interaction that looks up the command's name calls the command's
    callback, with the arguments of the interaction's own kind: the listener
    does not compare the kind of the interaction with the class of the
    registered command. *)
Theorem registered_command_is_dispatched (this : WrappedClient)
    (command : Command.t) (callback : Callback) (i : Interaction)
    (a : CallArgs) :
  completion (registerCommandObject command this) = Return true →
  Command.callback command = Some callback →
  lookup_key i = Some (Command.name command) →
  arguments_of i = Some a →
  interactionCreate i (this_after (registerCommandObject command this))
  = MkRun (Return tt) (this_after (registerCommandObject command this))
      [Call callback a].
Proof.
  intros Htrue Hcallback Hkey Ha.
  pose proof (registerCommandObject_true _ _ Htrue) as Hlookup.
  rewrite interactionCreate_run, Hkey, Ha.
  by rewrite (get_own _ _ _ Hlookup), Hcallback.
Qed.

Lemma registered_command_is_dispatched_witness :
  interactionCreate (ButtonInteraction Sample.base "report")
    (this_after (registerCommandObject Scenario.slash_report (constructor None)))
  = MkRun (Return tt)
      (this_after
         (registerCommandObject Scenario.slash_report (constructor None)))
      [Call Sample.report_callback
         (ComponentArgs (ButtonInteraction Sample.base "report"))].
Proof.
  apply (registered_command_is_dispatched (constructor None)
           Scenario.slash_report Sample.report_callback
           (ButtonInteraction Sample.base "report")
           (ComponentArgs (ButtonInteraction Sample.base "report"))).
  - reflexivity.
  - reflexivity.
  - reflexivity.
  - reflexivity.
Defined.

(** ** Further properties of the interaction listener *)

(** X17.  A context-menu invocation in a guild resolves its target from the
    caches: a user target to the user of the cached guild member with that
    id, a message target to the message cached under that id in the
    interaction's channel; the callback receives it. *)
Theorem context_menu_resolves_cached_target
    (this : WrappedClient) (base : BaseInteraction) (commandName : string)
    (targetType : TargetType) (targetId : Snowflake)
    (command : Command.t) (callback : Callback) (g : Guild) (target : Target) :
  commands this !! commandName = Some command →
  Command.callback command = Some callback →
  guild base = Some g →
  (targetType = USER
   ∧ ∃ m, members g !! targetId = Some m ∧ target = TargetUser (user m))
  ∨ (targetType = MESSAGE
     ∧ ∃ ch msg, channel base = Some ch ∧ messages ch !! targetId = Some msg
                 ∧ target = TargetMessage msg) →
  interactionCreate
    (ContextMenuInteraction base commandName targetType targetId) this
  = MkRun (Return tt) this
      [Call callback
         (ContextMenuArgs
            (ContextMenuInteraction base commandName targetType targetId)
            (Some target))].
Proof.
  intros Hlookup Hcallback Hguild Hcached.
  rewrite interactionCreate_run; cbn.
  rewrite (get_own _ _ _ Hlookup), Hcallback.
  assert (target_of base targetType targetId = Some target) as ->; [|done].
  unfold target_of. rewrite Hguild.
  destruct Hcached as [(-> & m & -> & ->) | (-> & ch & msg & -> & -> & ->)];
    done.
Qed.

Lemma context_menu_resolves_cached_target_witness :
  interactionCreate
    (ContextMenuInteraction Scenario.base_cached "report" MESSAGE "901")
    Sample.client_with_report
  = MkRun (Return tt) Sample.client_with_report
      [Call Sample.report_callback
         (ContextMenuArgs
            (ContextMenuInteraction Scenario.base_cached "report" MESSAGE "901")
            (Some (TargetMessage Scenario.cached_message)))].
Proof.
  apply (context_menu_resolves_cached_target Sample.client_with_report
           Scenario.base_cached "report" MESSAGE "901"
           (Sample.report Command.ContextMenuCommand None
              (Some Sample.report_callback))
           Sample.report_callback
           {| members := {[ "100" := Sample.alice ]} |}
           (TargetMessage Scenario.cached_message)).
  - reflexivity.
  - reflexivity.
  - reflexivity.
  - right. split; [reflexivity|].
    exists {| messages := {[ "901" := Scenario.cached_message ]} |},
      Scenario.cached_message.
    repeat split; reflexivity.
Defined.

(** X18.  An interaction calls at most one callback.  When it calls one, it
    is the callback of the definition registered under the interaction's
    key, the arguments are those of the interaction's kind, and the listener
    completes normally. *)
Theorem interactionCreate_calls_at_most_once (i : Interaction)
    (this : WrappedClient) :
  trace (interactionCreate i this) = []
  ∨ ∃ key command callback a,
      lookup_key i = Some key
      ∧ commands this !! key = Some command
      ∧ Command.callback command = Some callback
      ∧ arguments_of i = Some a
      ∧ interactionCreate i this = MkRun (Return tt) this [Call callback a].
Proof.
  rewrite interactionCreate_run.
  destruct (lookup_key i) as [key|]; [|by left].
  destruct (arguments_of i) as [a|]; [|by left].
  unfold Js.get.
  destruct (commands this !! key) as [command|] eqn:Hlookup.
  - destruct (Command.callback command) as [callback|] eqn:Hcallback;
      [|by left].
    right. by exists key, command, callback, a.
  - left. by case_bool_decide.
Qed.

(** ** [login], the payload queue and the constructor *)

(** X19.  [login] logs in, then subscribes the ready listener with [once]
    and the messageCreate and interactionCreate listeners with [on], in that
    order; every subscription is logged with the words "as once", also the
    two made with [on].  The client object is left unchanged. *)
Theorem login_subscribes_three_listeners (token : string)
    (this : WrappedClient) :
  login token this
  = MkRun (Return tt) this
      [ ClientLogin token;
        ConsoleLog "Registered ready as once.";
        ClientOnce "ready" ReadyListener;
        ConsoleLog "Registered messageCreate as once.";
        ClientOn "messageCreate" MessageCreateListener;
        ConsoleLog "Registered interactionCreate as once.";
        ClientOn "interactionCreate" InteractionCreateListener ].
Proof. done. Qed.

(** X20.  Over any sequence of operations on a new client, the payloads
    queued are as many as the slash and context-menu commands in the
    registry at the end: one per registered command, none for a rejected
    registration, a button, a select menu or any other operation. *)
Theorem one_payload_per_forwarded_command (p : option string) (ops : list Op) :
  length (filter is_payload (trace_ops ops (constructor p)))
  = size (filter (λ kc, forwarded kc.2 = true)
            (commands (apply_ops ops (constructor p)))).
Proof.
  assert (∀ this,
    length (filter is_payload (trace_ops ops this))
    + size (filter (λ kc, forwarded kc.2 = true) (commands this))
    = size (filter (λ kc, forwarded kc.2 = true)
              (commands (apply_ops ops this)))) as Hgeneral.
  { induction ops as [|op ops IH]; intros this; [done|].
    cbn [trace_ops apply_ops]. rewrite filter_app, length_app, <- IH.
    rewrite trace_op_payloads.
    pose proof (apply_op_prefix_registries op this) as Hop.
    destruct op as [q|event|command|command|token|e]; rewrite Hop; try done.
    - rewrite registerMessageCommand_after.
      destruct (Js.get _ _); try done.
      by destruct (MessageCommand.callback command).
    - rewrite registerCommandObject_after.
      destruct (Js.get _ _) eqn:Hget; try done.
      destruct (Command.callback command); [|done].
      apply get_undefined in Hget as [Hfree _]. cbn [commands].
      destruct (forwarded command) eqn:Hforwarded.
      + rewrite map_filter_insert_True by done.
        rewrite map_size_insert_None; [lia|].
        by apply map_lookup_filter_None_2; left.
      + rewrite map_filter_insert_not'; [lia | cbn; congruence |].
        intros y Hy. by rewrite Hfree in Hy. }
  rewrite <- Hgeneral. cbn [constructor commands].
  rewrite map_filter_empty, map_size_empty. lia.
Qed.

(** X21.  A new client never has an empty prefix: an absent or empty
    argument leaves the default [!].  [setPrefix] has no such guard and
    accepts the empty string. *)
Theorem constructor_prefix_not_empty (p : option string) :
  Js.truthy (prefix (constructor p)) = true
  ∧ (p = None ∨ p = Some EmptyString → prefix (constructor p) = "!")
  ∧ prefix (this_after (setPrefix EmptyString (constructor p))) = EmptyString.
Proof.
  split; [by destruct p as [[|c s]|]|].
  split; [by intros [-> | ->]|done].
Qed.

Lemma constructor_prefix_not_empty_witness :
  prefix (constructor (Some EmptyString)) = "!".
Proof.
  apply (proj1 (proj2 (constructor_prefix_not_empty (Some EmptyString)))).
  right. reflexivity.
Defined.

(** X22.  On every client reached from a new one by any operations, an
    interaction whose key is registered always gets its callback called,
    exactly once: a definition without a callback never enters the
    registry. *)
Theorem reachable_registered_interaction_is_called (p : option string)
    (ops : list Op) (i : Interaction) (key : string) (command : Command.t)
    (a : CallArgs) :
  commands (apply_ops ops (constructor p)) !! key = Some command →
  lookup_key i = Some key →
  arguments_of i = Some a →
  ∃ callback,
    Command.callback command = Some callback
    ∧ interactionCreate i (apply_ops ops (constructor p))
      = MkRun (Return tt) (apply_ops ops (constructor p)) [Call callback a].
Proof.
  intros Hlookup Hkey Ha.
  pose proof (registry_ok_apply_ops ops _ (registry_ok_constructor p))
    as [_ Hcommands].
  destruct (Hcommands _ _ Hlookup) as (_ & [callback Hcallback] & _).
  exists callback. split; [done|].
  rewrite interactionCreate_run, Hkey, Ha.
  by rewrite (get_own _ _ _ Hlookup), Hcallback.
Qed.

Lemma reachable_registered_interaction_is_called_witness :
  ∃ callback,
    Command.callback Scenario.slash_report = Some callback
    ∧ interactionCreate (CommandInteraction Sample.base "report" [])
        (apply_ops
           [ OpRegisterCommandObject Scenario.slash_report;
             OpRegisterCommandObject
               (Sample.report Command.ButtonCommand None None) ]
           (constructor None))
      = MkRun (Return tt)
          (apply_ops
             [ OpRegisterCommandObject Scenario.slash_report;
               OpRegisterCommandObject
                 (Sample.report Command.ButtonCommand None None) ]
             (constructor None))
          [Call callback
             (SlashArgs (CommandInteraction Sample.base "report" []) [])].
Proof.
  apply (reachable_registered_interaction_is_called None
           [ OpRegisterCommandObject Scenario.slash_report;
             OpRegisterCommandObject
               (Sample.report Command.ButtonCommand None None) ]
           (CommandInteraction Sample.base "report" []) "report"
           Scenario.slash_report
           (SlashArgs (CommandInteraction Sample.base "report" []) [])).
  - reflexivity.
  - reflexivity.
  - reflexivity.
Defined.

(** X23.  Each listener reads only its own part of the client: what a text
    message does depends on the prefix and the text registry alone, what an
    interaction does on the interaction registry alone. *)
Theorem listeners_read_their_own_registry (this other : WrappedClient)
    (message : Message) (i : Interaction) :
  (prefix this = prefix other →
   messageCommands this = messageCommands other →
   completion (messageCreate message this)
   = completion (messageCreate message other)
   ∧ trace (messageCreate message this) = trace (messageCreate message other))
  ∧ (commands this = commands other →
     completion (interactionCreate i this)
     = completion (interactionCreate i other)
     ∧ trace (interactionCreate i this) = trace (interactionCreate i other)).
Proof.
  split.
  - intros Hprefix Htext. unfold messageCreate; run.
    rewrite Hprefix, Htext.
    destruct (Js.shift _) as [[command|] args]; [|done].
    destruct (Js.truthy command && _); [|done].
    destruct (Js.get _ _) as [[? [?|] [[fl al dn]|]]| |];
      destruct (member message) as [author|]; try done;
      destruct (bot (user author)); try done; cbn.
    destruct (flags_match _ _); [done|].
    destruct (negb _ && negb _); [done|].
    destruct (roles_match dn author); [done|].
    by destruct (roles_match al author).
  - intros Hcommands. rewrite !interactionCreate_run, Hcommands.
    destruct (lookup_key i), (arguments_of i); try done.
    by destruct (Js.get _ _).
Qed.

Lemma listeners_read_their_own_registry_witness :
  completion (messageCreate Sample.greeting (Sample.client None))
  = completion
      (messageCreate Sample.greeting
         (this_after
            (registerCommandObject Scenario.slash_report (Sample.client None))))
  ∧ trace (messageCreate Sample.greeting (Sample.client None))
    = trace
        (messageCreate Sample.greeting
           (this_after
              (registerCommandObject Scenario.slash_report
                 (Sample.client None)))).
Proof.
  apply (proj1 (listeners_read_their_own_registry (Sample.client None)
                  (this_after
                     (registerCommandObject Scenario.slash_report
                        (Sample.client None)))
                  Sample.greeting (OtherInteraction Sample.base))).
  - reflexivity.
  - reflexivity.
Defined.
